(** * Christmas 3D Shop API: the product handlers of [main.py]

    A shallow embedding of the data-access layer of the service:
    the identifier codec ([PyObjectId.validate]), the document serializer
    ([serialize_doc]) and the product handlers ([list_products],
    [update_product], [delete_product]), run against an in-memory model
    of the [product] collection. *)

From Stdlib Require Import ZArith NArith Ascii String PrimFloat FunInd.
From stdpp Require Import gmap strings list fin_maps sorting.

Local Open Scope string_scope.

(** ** Identifiers *)

(** Modelled from the spec: the identifier type of the store driver,
    [bson.ObjectId], absent from the sources.  An identifier holds the
    bytes that its constructor read; its [str] is their lower-case
    hexadecimal rendering. *)
Record ObjectId := mkObjectId { binary : list N }.

#[global] Instance ObjectId_eq_dec : EqDecision ObjectId.
Proof. solve_decision. Defined.

Definition hex_value (c : ascii) : option N :=
  let n := N_of_ascii c in
  if ((48 <=? n) && (n <=? 57))%N then Some (n - 48)%N
  else if ((97 <=? n) && (n <=? 102))%N then Some (n - 87)%N
  else if ((65 <=? n) && (n <=? 70))%N then Some (n - 55)%N
  else None.

Definition is_hex (c : ascii) : bool :=
  match hex_value c with Some _ => true | None => false end.

(** ASCII whitespace: the space and the characters 9 to 13. *)
Definition is_space (c : ascii) : bool :=
  let n := N_of_ascii c in
  ((n =? 32) || ((9 <=? n) && (n <=? 13)))%N.

(** [bytes.fromhex(s)]: two hexadecimal digits to the byte; ASCII
    whitespace is skipped before a byte and at the end, and is an error
    between the two digits of a byte. *)
Fixpoint fromhex (s : string) : option (list N) :=
  match s with
  | EmptyString => Some []
  | String c1 rest =>
      if is_space c1 then fromhex rest
      else
        match rest with
        | EmptyString => None
        | String c2 rest' =>
            match hex_value c1, hex_value c2, fromhex rest' with
            | Some hi, Some lo, Some bs => Some ((16 * hi + lo)%N :: bs)
            | _, _, _ => None
            end
        end
  end.

Definition hex_digit (n : N) : ascii :=
  if (n <? 10)%N then ascii_of_N (48 + n) else ascii_of_N (87 + n).

Fixpoint hexlify (bs : list N) : string :=
  match bs with
  | [] => EmptyString
  | b :: bs' =>
      String (hex_digit (b / 16)) (String (hex_digit (b mod 16)) (hexlify bs'))
  end.

(** ** Exceptions and results *)

Inductive exn :=
| HTTPException (status_code : Z) (detail : string)
| ValueError (msg : string)
| InvalidId (oid : string)
| PyMongoError (msg : string).

(** [str(e)] *)
Definition exn_str (e : exn) : string :=
  match e with
  | HTTPException _ detail => detail
  | ValueError msg => msg
  | PyMongoError msg => msg
  | InvalidId oid =>
      "'" +:+ oid +:+
      "' is not a valid ObjectId, it must be a 12-byte input or a 24-character hex string"
  end.

Inductive result (A : Type) :=
| Return (a : A)
| Raise (e : exn).
Arguments Return {A} a.
Arguments Raise {A} e.

(** Modelled from the spec: the constructor [ObjectId(v)] of the store
    driver on a string, absent from the sources: a string of twenty-four
    characters is read by [bytes.fromhex], anything else raises
    [InvalidId].  The driver does not count the bytes it read, so a
    string with whitespace gives an identifier of fewer than twelve. *)
Definition ObjectId_new (v : string) : result ObjectId :=
  if (String.length v =? 24)%nat then
    match fromhex v with
    | Some bs => Return (mkObjectId bs)
    | None => Raise (InvalidId v)
    end
  else Raise (InvalidId v).

(** Modelled from the spec: [ObjectId.is_valid(v)] of the store driver
    on a string, absent from the sources: false on the empty string,
    else whether the constructor accepts the string. *)
Definition ObjectId_is_valid (v : string) : bool :=
  match v with
  | EmptyString => false
  | String _ _ =>
      match ObjectId_new v with
      | Return _ => true
      | Raise _ => false
      end
  end.

(** The argument of [PyObjectId.validate]: an [ObjectId] or a string. *)
Inductive id_input :=
| IOid (o : ObjectId)
| IStr (s : string).

Module PyObjectId.
Definition validate (v : id_input) : result ObjectId :=
  match v with
  | IOid o => Return o
  | IStr s =>
      if negb (ObjectId_is_valid s) then Raise (ValueError "Invalid objectid")
      else ObjectId_new s
  end.
End PyObjectId.

(** ** Documents *)

Inductive value :=
| VNone
| VBool (b : bool)
| VFloat (x : float)
| VStr (s : string)
| VOid (o : ObjectId)
| VDate (t : Z).

(** [v is None] *)
Definition is_None (v : value) : bool :=
  match v with VNone => true | _ => false end.

(** The renderings of [str] that the interpreter owns: the shortest
    round-trip text of a float and the ISO-like text of a datetime. *)
Class PyRuntime := {
  float_repr : float → string;
  datetime_str : Z → string
}.

Section Serializer.
Context `{PyRuntime}.

(** [str(v)] *)
Definition py_str (v : value) : string :=
  match v with
  | VNone => "None"
  | VBool true => "True"
  | VBool false => "False"
  | VFloat x => float_repr x
  | VStr s => s
  | VOid o => hexlify (binary o)
  | VDate t => datetime_str t
  end.

(** [doc.get(k)] *)
Definition dict_get (d : gmap string value) (k : string) : value :=
  default VNone (d !! k).

(** [not doc], for a dict or [None] *)
Definition falsy (doc : option (gmap string value)) : bool :=
  match doc with
  | None => true
  | Some d => (size d =? 0)%nat
  end.

Definition serialize_doc (doc : option (gmap string value))
  : option (gmap string value) :=
  if falsy doc then doc
  else
    match doc with
    | None => None
    | Some d =>
        let d1 := <["id" := VStr (py_str (dict_get d "_id"))]> d in
        Some (delete "_id" d1)
    end.

End Serializer.

(** ** The document store *)

(** Modelled from the spec: the Document Store Gateway, the driver's
    collection object behind [db["product"]].  The collection is the
    list of its documents in natural order; every operation the handlers
    use is recorded in [calls], so that "no store round-trip" can be
    stated.  Timestamps are instants in the store's unit (milliseconds
    since the epoch).  The operations of [Gateway] are those of a store
    in normal operation: none raises, and a document that was updated
    is still there when it is read back.  [update_product_on] and
    [delete_product_on] below take the operations of any gateway. *)
Inductive gateway_call :=
| CFindSorted
| CFindOne (oid : ObjectId)
| CUpdateOne (oid : ObjectId) (data : gmap string value)
| CDeleteOne (oid : ObjectId).

Record store := mkStore {
  product : list (gmap string value);
  calls : list gateway_call
}.

Record UpdateResult := mkUpdateResult { matched_count : nat }.
Record DeleteResult := mkDeleteResult { deleted_count : nat }.

(** The filter [{"_id": oid}] *)
Definition has_id (oid : ObjectId) (d : gmap string value) : bool :=
  match d !! "_id" with
  | Some (VOid o) => bool_decide (o = oid)
  | _ => false
  end.

(** The sort key of [.sort("created_at", -1)]: dates compare by instant
    and a document without a date in [created_at] ranks as null, below
    every date. *)
Definition created_at_key (d : gmap string value) : option Z :=
  match d !! "created_at" with
  | Some (VDate t) => Some t
  | _ => None
  end.

Definition key_leb (a b : option Z) : bool :=
  match a, b with
  | None, _ => true
  | Some _, None => false
  | Some x, Some y => (x <=? y)%Z
  end.

(** [newer_first d1 d2]: [d1] may stand before [d2] in a descending
    listing. *)
Definition newer_first (d1 d2 : gmap string value) : Prop :=
  key_leb (created_at_key d2) (created_at_key d1) = true.

#[global] Instance newer_first_dec d1 d2 : Decision (newer_first d1 d2).
Proof. unfold newer_first. apply _. Defined.

Module Collection.

Fixpoint find_one (oid : ObjectId) (c : list (gmap string value))
  : option (gmap string value) :=
  match c with
  | [] => None
  | d :: c' => if has_id oid d then Some d else find_one oid c'
  end.

(** [update_one(filter, {"$set": data})]: the first match takes the
    fields of [data]; the result counts the matches (zero or one). *)
Fixpoint update_one (oid : ObjectId) (data : gmap string value)
    (c : list (gmap string value)) : nat * list (gmap string value) :=
  match c with
  | [] => (0, [])
  | d :: c' =>
      if has_id oid d then (1, (data ∪ d) :: c')
      else let '(n, c'') := update_one oid data c' in (n, d :: c'')
  end.

(** [delete_one(filter)]: the first match is removed. *)
Fixpoint delete_one (oid : ObjectId) (c : list (gmap string value))
  : nat * list (gmap string value) :=
  match c with
  | [] => (0, [])
  | d :: c' =>
      if has_id oid d then (1, c')
      else let '(n, c'') := delete_one oid c' in (n, d :: c'')
  end.

(** [find({}).sort("created_at", -1)] *)
Definition find_sorted (c : list (gmap string value))
  : list (gmap string value) :=
  merge_sort newer_first c.

End Collection.

(** ** Handlers: state of the store, and exceptions *)

Definition M (A : Type) : Type := store → result A * store.

Definition ret {A} (a : A) : M A := fun s => (Return a, s).
Definition raise {A} (e : exn) : M A := fun s => (Raise e, s).
Definition lift {A} (r : result A) : M A := fun s => (r, s).
Definition bind {A B} (m : M A) (k : A → M B) : M B :=
  fun s =>
    match m s with
    | (Return a, s') => k a s'
    | (Raise e, s') => (Raise e, s')
    end.

Notation "'let*' x ':=' m 'in' k" := (bind m (fun x => k))
  (at level 10, x name, m at level 100, k at level 200, only parsing).

Definition log (c : gateway_call) (s : store) : store :=
  mkStore (product s) (calls s ++ [c]).

Module Gateway.

Definition find_sorted : M (list (gmap string value)) :=
  fun s => (Return (Collection.find_sorted (product s)), log CFindSorted s).

Definition find_one (oid : ObjectId) : M (option (gmap string value)) :=
  fun s => (Return (Collection.find_one oid (product s)), log (CFindOne oid) s).

Definition update_one (oid : ObjectId) (data : gmap string value)
  : M UpdateResult :=
  fun s =>
    let '(n, c) := Collection.update_one oid data (product s) in
    (Return (mkUpdateResult n), mkStore c (calls s ++ [CUpdateOne oid data])).

Definition delete_one (oid : ObjectId) : M DeleteResult :=
  fun s =>
    let '(n, c) := Collection.delete_one oid (product s) in
    (Return (mkDeleteResult n), mkStore c (calls s ++ [CDeleteOne oid])).

End Gateway.

(** [except HTTPException: raise] then
    [except Exception as e: raise HTTPException(status_code=400, detail=str(e))] *)
Definition except_reraise_400 {A} (m : M A) : M A :=
  fun s =>
    match m s with
    | (Return a, s') => (Return a, s')
    | (Raise (HTTPException c d), s') => (Raise (HTTPException c d), s')
    | (Raise e, s') => (Raise (HTTPException 400 (exn_str e)), s')
    end.

(** [except Exception as e: raise HTTPException(status_code=500, detail=str(e))] *)
Definition except_500 {A} (m : M A) : M A :=
  fun s =>
    match m s with
    | (Return a, s') => (Return a, s')
    | (Raise e, s') => (Raise (HTTPException 500 (exn_str e)), s')
    end.

(** The request body of PUT: a field is unset ([None]), supplied as
    null ([Some None]) or supplied with a value. *)
Record ProductUpdate := mkProductUpdate {
  title : option (option string);
  description : option (option string);
  price : option (option float);
  category : option (option string);
  in_stock : option (option bool)
}.

Definition dump_field {A} (inj : A → value) (k : string)
    (f : option (option A)) (m : gmap string value) : gmap string value :=
  match f with
  | None => m
  | Some None => <[k := VNone]> m
  | Some (Some a) => <[k := inj a]> m
  end.

(** [payload.model_dump(exclude_unset=True)] *)
Definition model_dump_exclude_unset (p : ProductUpdate) : gmap string value :=
  dump_field VBool "in_stock" (in_stock p)
    (dump_field VStr "category" (category p)
      (dump_field VFloat "price" (price p)
        (dump_field VStr "description" (description p)
          (dump_field VStr "title" (title p) ∅)))).

(** [{k: v for k, v in ... .items() if v is not None}] *)
Definition update_data (p : ProductUpdate) : gmap string value :=
  filter (λ kv, is_None kv.2 = false) (model_dump_exclude_unset p).

Definition status_ok : gmap string value := {[ "status" := VStr "ok" ]}.

Section Handlers.
Context `{PyRuntime}.

Definition list_products (db : option store)
  : result (list (option (gmap string value))) * option store :=
  match db with
  | Some s =>
      let '(r, s') :=
        except_500
          (let* docs := Gateway.find_sorted in
           ret ((λ d, serialize_doc (Some d)) <$> docs)) s in
      (r, Some s')
  | None => (Return ((λ d, serialize_doc (Some d)) <$> []), None)
  end.

Definition update_product (db : option store) (product_id : string)
    (payload : ProductUpdate) (now : Z)
  : result (option (gmap string value)) * option store :=
  match db with
  | None => (Raise (HTTPException 500 "Database not configured"), None)
  | Some s =>
      let '(r, s') :=
        except_reraise_400
          (let* oid := lift (PyObjectId.validate (IStr product_id)) in
           let data := update_data payload in
           if falsy (Some data) then
             raise (HTTPException 400 "No fields to update")
           else
             let data := <["updated_at" := VDate now]> data in
             let* res := Gateway.update_one oid data in
             if (matched_count res =? 0)%nat then
               raise (HTTPException 404 "Product not found")
             else
               let* doc := Gateway.find_one oid in
               ret (serialize_doc doc)) s in
      (r, Some s')
  end.

Definition delete_product (db : option store) (product_id : string)
  : result (gmap string value) * option store :=
  match db with
  | None => (Raise (HTTPException 500 "Database not configured"), None)
  | Some s =>
      let '(r, s') :=
        except_reraise_400
          (let* oid := lift (PyObjectId.validate (IStr product_id)) in
           let* res := Gateway.delete_one oid in
           if (deleted_count res =? 0)%nat then
             raise (HTTPException 404 "Product not found")
           else ret status_ok) s in
      (r, Some s')
  end.

End Handlers.

(** ** The handlers over any gateway *)

(** The operations of [db["product"]] that update and delete call, as
    a driver may behave: each may change the store and may raise. *)
Record gateway := mkGateway {
  gw_find_one : ObjectId → M (option (gmap string value));
  gw_update_one : ObjectId → gmap string value → M UpdateResult;
  gw_delete_one : ObjectId → M DeleteResult
}.

(** The gateway of the in-memory store above, which never raises. *)
Definition reliable : gateway :=
  mkGateway Gateway.find_one Gateway.update_one Gateway.delete_one.

(** A store that cannot be reached: every call raises. *)
Definition unreachable : gateway :=
  mkGateway (λ _, raise (PyMongoError "connection refused"))
            (λ _ _, raise (PyMongoError "connection refused"))
            (λ _, raise (PyMongoError "connection refused")).

Section HandlersOn.
Context `{PyRuntime}.

(** [update_product], with the calls to the store taken from [gw]. *)
Definition update_product_on (gw : gateway) (db : option store)
    (product_id : string) (payload : ProductUpdate) (now : Z)
  : result (option (gmap string value)) * option store :=
  match db with
  | None => (Raise (HTTPException 500 "Database not configured"), None)
  | Some s =>
      let '(r, s') :=
        except_reraise_400
          (let* oid := lift (PyObjectId.validate (IStr product_id)) in
           let data := update_data payload in
           if falsy (Some data) then
             raise (HTTPException 400 "No fields to update")
           else
             let data := <["updated_at" := VDate now]> data in
             let* res := gw_update_one gw oid data in
             if (matched_count res =? 0)%nat then
               raise (HTTPException 404 "Product not found")
             else
               let* doc := gw_find_one gw oid in
               ret (serialize_doc doc)) s in
      (r, Some s')
  end.

(** [delete_product], with the call to the store taken from [gw]. *)
Definition delete_product_on (gw : gateway) (db : option store)
    (product_id : string)
  : result (gmap string value) * option store :=
  match db with
  | None => (Raise (HTTPException 500 "Database not configured"), None)
  | Some s =>
      let '(r, s') :=
        except_reraise_400
          (let* oid := lift (PyObjectId.validate (IStr product_id)) in
           let* res := gw_delete_one gw oid in
           if (deleted_count res =? 0)%nat then
             raise (HTTPException 404 "Product not found")
           else ret status_ok) s in
      (r, Some s')
  end.

End HandlersOn.

Definition is_HTTPException (e : exn) : bool :=
  match e with
  | HTTPException _ _ => true
  | _ => false
  end.

(** What the two [except] clauses of update and delete make of an
    exception. *)
Definition classify (e : exn) : exn :=
  match e with
  | HTTPException c d => HTTPException c d
  | _ => HTTPException 400 (exn_str e)
  end.

(** A gateway that raises no [HTTPException] of its own. *)
Definition http_free (gw : gateway) : Prop :=
  (∀ oid s e s',
     gw_find_one gw oid s = (Raise e, s') → is_HTTPException e = false) ∧
  (∀ oid data s e s',
     gw_update_one gw oid data s = (Raise e, s') →
     is_HTTPException e = false) ∧
  (∀ oid s e s',
     gw_delete_one gw oid s = (Raise e, s') → is_HTTPException e = false).

(** ** Notions used in the statements *)

(** Identifiers are unique in a collection: no two documents share the
    value of [_id]. *)
Definition unique_ids (c : list (gmap string value)) : Prop :=
  NoDup ((λ d : gmap string value, d !! "_id") <$> c).

(** The payload with every null field taken for unset. *)
Definition unset_null {A} (f : option (option A)) : option (option A) :=
  match f with
  | Some None => None
  | _ => f
  end.

Definition drop_nulls (p : ProductUpdate) : ProductUpdate :=
  mkProductUpdate (unset_null (title p)) (unset_null (description p))
    (unset_null (price p)) (unset_null (category p)) (unset_null (in_stock p)).

(** The set written by an update: the supplied fields and the stamp. *)
Definition stamped (p : ProductUpdate) (now : Z) : gmap string value :=
  <["updated_at" := VDate now]> (update_data p).

(** The order of the views in a listing, by the [created_at] they show. *)
Definition view_newer_first (v1 v2 : option (gmap string value)) : Prop :=
  newer_first (default ∅ v1) (default ∅ v2).

(** ** Sample data *)

Definition plain_runtime : PyRuntime :=
  {| float_repr := fun _ => "0.0";
     datetime_str := fun _ => "1970-01-01 00:00:00" |}.

Definition tree_id : ObjectId := mkObjectId (replicate 12 171%N).
Definition star_id : ObjectId := mkObjectId (replicate 12 1%N).

Definition tree : gmap string value :=
  {[ "_id" := VOid tree_id; "title" := VStr "Tree";
     "price" := VFloat 49.5%float; "category" := VStr "Geral";
     "in_stock" := VBool true;
     "created_at" := VDate 5; "updated_at" := VDate 5 ]}.

Definition star : gmap string value :=
  {[ "_id" := VOid star_id; "title" := VStr "Star";
     "price" := VFloat 9.5%float; "category" := VStr "Geral";
     "in_stock" := VBool true;
     "created_at" := VDate 7; "updated_at" := VDate 7 ]}.

Definition shop : store := mkStore [tree; star] [].

(** The identifier of the tree, as a client sends it. *)
Definition tree_hex : string := "abababababababababababab".

(** Twenty-four characters that are not all hexadecimal digits, and
    the eight bytes that the driver reads from them. *)
Definition spaced_hex : string := "ab ab ab ab ab ab ab ab ".
Definition spaced_id : ObjectId := mkObjectId (replicate 8 171%N).

(** A payload that supplies [price] and nothing else. *)
Definition only_price (x : float) : ProductUpdate :=
  mkProductUpdate None None (Some (Some x)) None None.

(** The payload [{}]. *)
Definition no_fields : ProductUpdate :=
  mkProductUpdate None None None None None.

(** ** The diagnostic endpoint *)

(** The values of the response of [test_database]: [None], a string or
    a list of names. *)
Inductive diag :=
| DNone
| DStr (s : string)
| DList (l : list string).

(** The outcome of a call to the driver that may raise: the value, or
    the text [str(e)] of the exception, as its UTF-8 bytes. *)
Inductive outcome (A : Type) :=
| Done (a : A)
| Failed (msg : string).
Arguments Done {A} a.
Arguments Failed {A} msg.

(** The handle [db] as [test_database] looks at it: its [name]
    attribute where [hasattr(db, 'name')] holds, and the outcome of
    [db.list_collection_names()]. *)
Record handle := mkHandle {
  handle_name : option string;
  list_collection_names : outcome (list string)
}.

(** [os.getenv(k)] taken as a condition: set, and not the empty string. *)
Definition getenv_truthy (env : gmap string string) (k : string) : bool :=
  match env !! k with
  | Some v => negb (String.eqb v "")
  | None => false
  end.

Definition diag_initial : gmap string diag :=
  {[ "backend" := DStr "✅ Running";
     "database" := DStr "❌ Not Available";
     "database_url" := DNone;
     "database_name" := DNone;
     "connection_status" := DStr "Not Connected";
     "collections" := DList [] ]}.

(** A byte that continues a character of a UTF-8 text. *)
Definition is_continuation (c : ascii) : bool :=
  let n := N_of_ascii c in
  ((128 <=? n) && (n <? 192))%N.

(** [s[:n]] on the UTF-8 bytes of [s]: the bytes of its first [n]
    characters. *)
Fixpoint utf8_take (n : nat) (s : string) : string :=
  match s with
  | EmptyString => EmptyString
  | String c s' =>
      if is_continuation c then String c (utf8_take n s')
      else
        match n with
        | O => EmptyString
        | S n' => String c (utf8_take n' s')
        end
  end.


(** The branch [db is not None] of [test_database], with its inner
    [try]; [str(e)[:50]] keeps the first fifty characters. *)
Definition probe (db : handle) (response : gmap string diag)
  : gmap string diag :=
  let response := <["database" := DStr "✅ Available"]> response in
  let response := <["database_url" := DStr "✅ Configured"]> response in
  let response :=
    <["database_name" := DStr (default "✅ Connected" (handle_name db))]>
      response in
  let response := <["connection_status" := DStr "Connected"]> response in
  match list_collection_names db with
  | Done collections =>
      let response := <["collections" := DList (take 10 collections)]> response in
      <["database" := DStr "✅ Connected & Working"]> response
  | Failed msg =>
      <["database" :=
          DStr ("⚠️  Connected but Error: " +:+ utf8_take 50 msg)]>
        response
  end.

(** [test_database].  No step of the outer [try] raises outside the
    inner one, so its handler is not reached. *)
Definition test_database (db : option handle) (env : gmap string string)
  : gmap string diag :=
  let response := diag_initial in
  let response :=
    match db with
    | Some h => probe h response
    | None =>
        <["database" := DStr "⚠️  Available but not initialized"]> response
    end in
  let response :=
    <["database_url" :=
        DStr (if getenv_truthy env "DATABASE_URL" then "✅ Set"
              else "❌ Not Set")]> response in
  <["database_name" :=
      DStr (if getenv_truthy env "DATABASE_NAME" then "✅ Set"
            else "❌ Not Set")]> response.

(** ** Further notions used in the statements *)

(** [c.lower()] and [v.lower()], on ASCII. *)
Definition ascii_lower (c : ascii) : ascii :=
  let n := N_of_ascii c in
  if ((65 <=? n) && (n <=? 90))%N then ascii_of_N (n + 32) else c.

Fixpoint string_lower (s : string) : string :=
  match s with
  | EmptyString => EmptyString
  | String c s' => String (ascii_lower c) (string_lower s')
  end.

(** A string without its ASCII whitespace. *)
Fixpoint without_space (s : string) : string :=
  match s with
  | EmptyString => EmptyString
  | String c s' =>
      if is_space c then without_space s' else String c (without_space s')
  end.

(** The keys an update can write. *)
Definition update_fields : list string :=
  ["title"; "description"; "price"; "category"; "in_stock"; "updated_at"].

(** The identifier fields of the documents of a collection, in order. *)
Definition ids (c : list (gmap string value)) : list (option value) :=
  (λ d : gmap string value, d !! "_id") <$> c.

(** The tree after [PUT {"price": 39.5}] at instant 100, the shop
    around it and the view returned. *)
Definition tree_repriced : gmap string value :=
  <["updated_at" := VDate 100]> (<["price" := VFloat 39.5%float]> tree).

Definition shop_repriced : store :=
  mkStore [tree_repriced; star]
    [CUpdateOne tree_id (stamped (only_price 39.5%float) 100);
     CFindOne tree_id].

Definition tree_repriced_view : gmap string value :=
  <["id" := VStr tree_hex]> (delete "_id" tree_repriced).

Definition mongo : handle :=
  mkHandle (Some "shop")
    (Done ["lead"; "product"; "c3"; "c4"; "c5"; "c6"; "c7"; "c8"; "c9";
           "c10"; "c11"; "c12"]).

(** * Properties *)

Create HintDb handlers.
#[global] Hint Unfold except_reraise_400 except_500 bind lift raise ret
  : handlers.

(** ** The identifier codec *)

Functional Scheme fromhex_ind := Induction for fromhex Sort Prop.

Lemma hex_value_ge (c : ascii) (h : N) :
  hex_value c = Some h → (48 ≤ N_of_ascii c)%N.
Proof.
  unfold hex_value. cbv zeta. generalize (N_of_ascii c). intros n.
  destruct ((48 <=? n) && (n <=? 57))%N eqn:E1;
    [apply andb_prop in E1 as [L _]; apply N.leb_le in L; lia|].
  destruct ((97 <=? n) && (n <=? 102))%N eqn:E2;
    [apply andb_prop in E2 as [L _]; apply N.leb_le in L; lia|].
  destruct ((65 <=? n) && (n <=? 70))%N eqn:E3; [|done].
  apply andb_prop in E3 as [L _]. apply N.leb_le in L. lia.
Qed.

Lemma is_space_le (c : ascii) : is_space c = true → (N_of_ascii c ≤ 32)%N.
Proof.
  unfold is_space. cbv zeta. generalize (N_of_ascii c). intros n.
  intros [E|E]%orb_prop.
  - apply N.eqb_eq in E. lia.
  - apply andb_prop in E as [_ U]. apply N.leb_le in U. lia.
Qed.

Lemma hex_value_not_space (c : ascii) (h : N) :
  hex_value c = Some h → is_space c = false.
Proof.
  intros Hh%hex_value_ge. destruct (is_space c) eqn:E; [|done].
  apply is_space_le in E. lia.
Qed.

Lemma is_hex_not_space (c : ascii) : is_hex c = true → is_space c = false.
Proof.
  unfold is_hex. destruct (hex_value c) eqn:E; [|done].
  intros _. by eapply hex_value_not_space.
Qed.

(** What [fromhex] reads is made of hexadecimal digits and whitespace. *)
Lemma fromhex_chars (v : string) (bs : list N) :
  fromhex v = Some bs →
  forallb (λ c, is_hex c || is_space c) (list_ascii_of_string v) = true.
Proof.
  revert bs. functional induction (fromhex v); intros bs' E; simpl;
    try done.
  - rewrite e0, orb_true_r. simpl. by eapply IHo.
  - unfold is_hex at 1 2. rewrite e2, e3. simpl. by eapply IHo.
Qed.

(** Without whitespace, an even number of hexadecimal digits is read
    to half as many bytes. *)
Lemma fromhex_total (n : nat) (s : string) :
  String.length s = (2 * n)%nat →
  forallb is_hex (list_ascii_of_string s) = true →
  ∃ bs, fromhex s = Some bs ∧ length bs = n.
Proof.
  revert s. induction n as [|n IH]; intros s Hlen Hhex.
  - destruct s; [by exists [] | discriminate].
  - destruct s as [|c1 [|c2 rest]]; simpl in Hlen; try lia.
    simpl in Hhex. apply andb_prop in Hhex as [H1 Hhex].
    apply andb_prop in Hhex as [H2 Hhex].
    destruct (IH rest) as (bs & Hbs & Hl); [lia | done |].
    simpl. rewrite (is_hex_not_space _ H1).
    unfold is_hex in H1, H2.
    destruct (hex_value c1) as [hi|]; [|done].
    destruct (hex_value c2) as [lo|]; [|done].
    rewrite Hbs. eexists. split; [done|]. simpl. by rewrite Hl.
Qed.

Lemma ObjectId_is_valid_new (v : string) :
  ObjectId_is_valid v = true ↔ ∃ oid, ObjectId_new v = Return oid.
Proof.
  destruct v as [|c v]; simpl.
  - split; [done | by intros [oid ?]].
  - destruct (ObjectId_new (String c v)) as [oid|e].
    + split; [by exists oid | done].
    + split; [done | by intros [oid ?]].
Qed.

Lemma validate_valid (v : string) :
  ObjectId_is_valid v = true →
  ∃ oid, PyObjectId.validate (IStr v) = Return oid ∧
         ObjectId_new v = Return oid.
Proof.
  intros Hv. unfold PyObjectId.validate. rewrite Hv. simpl.
  apply ObjectId_is_valid_new in Hv as [oid Hv]. by exists oid.
Qed.

Lemma validate_invalid (v : string) :
  ObjectId_is_valid v = false →
  PyObjectId.validate (IStr v) = Raise (ValueError "Invalid objectid").
Proof. intros Hv. unfold PyObjectId.validate. by rewrite Hv. Qed.

Lemma validate_Return_valid (v : string) (oid : ObjectId) :
  PyObjectId.validate (IStr v) = Return oid → ObjectId_is_valid v = true.
Proof.
  unfold PyObjectId.validate. by destruct (ObjectId_is_valid v).
Qed.

(** [validate] answers with an identifier or with [ValueError]: the
    constructor never fails behind the check. *)
Lemma validate_result (v : string) :
  (∃ oid, PyObjectId.validate (IStr v) = Return oid) ∨
  PyObjectId.validate (IStr v) = Raise (ValueError "Invalid objectid").
Proof.
  destruct (ObjectId_is_valid v) eqn:Hv.
  - left. destruct (validate_valid v Hv) as (oid & ? & _). by exists oid.
  - right. by apply validate_invalid.
Qed.

(** A string of the wrong length, or with a character that is neither
    a hexadecimal digit nor whitespace, is not a valid identifier. *)
Lemma ObjectId_is_valid_false (v : string) :
  String.length v ≠ 24%nat ∨
  Exists (λ c, is_hex c = false ∧ is_space c = false)
    (list_ascii_of_string v) →
  ObjectId_is_valid v = false.
Proof.
  intros Hbad. destruct (ObjectId_is_valid v) eqn:Hv; [|done].
  apply ObjectId_is_valid_new in Hv as [oid Hv]. unfold ObjectId_new in Hv.
  destruct (String.length v =? 24)%nat eqn:Hlen; [|done].
  apply Nat.eqb_eq in Hlen.
  destruct (fromhex v) as [bs|] eqn:Hf; [|done].
  apply fromhex_chars in Hf. destruct Hbad as [?|Hbad]; [done|].
  exfalso. induction (list_ascii_of_string v) as [|c l IH]; simpl in *.
  - by apply Exists_nil in Hbad.
  - apply andb_prop in Hf as [Hc Hf].
    apply Exists_cons in Hbad as [[H1 H2]|Hbad]; [|by apply IH].
    by rewrite H1, H2 in Hc.
Qed.

(** ** The serializer *)

Section SerializerFacts.
Context `{PyRuntime}.

Lemma falsy_true (doc : option (gmap string value)) :
  falsy doc = true ↔ doc = None ∨ doc = Some ∅.
Proof.
  destruct doc as [d|]; simpl.
  - rewrite Nat.eqb_eq, map_size_empty_iff.
    split; [intros ->; by right | by intros [?|[= ->]]].
  - split; [by left | done].
Qed.

Lemma falsy_Some_false (d : gmap string value) :
  d ≠ ∅ → falsy (Some d) = false.
Proof.
  intros Hd. destruct (falsy (Some d)) eqn:E; [|done].
  apply falsy_true in E as [?|[= ?]]; done.
Qed.

Lemma serialize_doc_Some (d : gmap string value) :
  d ≠ ∅ →
  serialize_doc (Some d) =
  Some (delete "_id" (<["id" := VStr (py_str (dict_get d "_id"))]> d)).
Proof. intros Hd. unfold serialize_doc. by rewrite falsy_Some_false. Qed.

(** C8: a document that carries [_id] is returned with [_id] removed
    and [id] set to the string form of the identifier; every other
    field is as in the input, and the view has no [_id]. *)
Theorem serialize_doc_client_view (d : gmap string value) (v : value) :
  d !! "_id" = Some v →
  ∃ view,
    serialize_doc (Some d) = Some view ∧
    view = <["id" := VStr (py_str v)]> (delete "_id" d) ∧
    view !! "_id" = None ∧
    view !! "id" = Some (VStr (py_str v)) ∧
    ∀ k, k ≠ "_id" → k ≠ "id" → view !! k = d !! k.
Proof.
  intros Hid.
  assert (d ≠ ∅) as Hne by (intros ->; by rewrite lookup_empty in Hid).
  eexists. split; [by apply serialize_doc_Some|].
  unfold dict_get. rewrite Hid. simpl.
  rewrite delete_insert_ne by done.
  split; [done|]. split; [|split].
  - rewrite lookup_insert_ne by done. apply lookup_delete_eq.
  - apply lookup_insert_eq.
  - intros k Hk1 Hk2. rewrite lookup_insert_ne by done.
    by rewrite lookup_delete_ne.
Qed.

(** C9: an absent ([None]) or empty document is returned as it is. *)
Theorem serialize_doc_passthrough (doc : option (gmap string value)) :
  doc = None ∨ doc = Some ∅ → serialize_doc doc = doc.
Proof.
  intros Hdoc%falsy_true. unfold serialize_doc. by rewrite Hdoc.
Qed.

(** C10: a non-empty document without [_id] gets [id = "None"], the
    string form of the missing identifier, and keeps its fields. *)
Theorem serialize_doc_without_id (d : gmap string value) :
  d ≠ ∅ → d !! "_id" = None →
  serialize_doc (Some d) = Some (<["id" := VStr "None"]> d) ∧
  ∀ k, k ≠ "id" → (<["id" := VStr "None"]> d) !! k = d !! k.
Proof.
  intros Hne Hid. split.
  - rewrite serialize_doc_Some by done.
    unfold dict_get. rewrite Hid. simpl.
    rewrite delete_insert_ne by done. by rewrite delete_id.
  - intros k Hk. by rewrite lookup_insert_ne.
Qed.

End SerializerFacts.

(** ** The collection *)

Section CollectionFacts.
Implicit Types (c : list (gmap string value)) (d data : gmap string value).
Implicit Types (oid : ObjectId).

Lemma has_id_union oid data d :
  data !! "_id" = None → has_id oid (data ∪ d) = has_id oid d.
Proof. intros Hd. unfold has_id. by rewrite lookup_union_r. Qed.

Lemma has_id_lookup oid d :
  has_id oid d = true ↔ d !! "_id" = Some (VOid oid).
Proof.
  unfold has_id. destruct (d !! "_id") as [[| | | |o|]|]; try by split.
  rewrite bool_decide_eq_true. split; [by intros -> | by intros [= ->]].
Qed.

Lemma update_one_unmatched oid data c :
  Collection.find_one oid c = None →
  Collection.update_one oid data c = (0%nat, c).
Proof.
  induction c as [|d c IH]; simpl; [done|].
  destruct (has_id oid d); [done|]. intros Hc. by rewrite IH.
Qed.

Lemma update_one_matched oid data c d :
  Collection.find_one oid c = Some d →
  ∃ i, c !! i = Some d ∧
       Collection.update_one oid data c = (1%nat, <[i := data ∪ d]> c).
Proof.
  induction c as [|d0 c IH]; simpl; [done|].
  destruct (has_id oid d0).
  - intros [= ->]. by exists 0%nat.
  - intros Hc. destruct (IH Hc) as (i & Hi & ->). by exists (S i).
Qed.

Lemma find_one_update_one oid data c :
  data !! "_id" = None →
  Collection.find_one oid (Collection.update_one oid data c).2 =
  (λ d, data ∪ d) <$> Collection.find_one oid c.
Proof.
  intros Hd. induction c as [|d c IH]; simpl; [done|].
  destruct (has_id oid d) eqn:E; simpl.
  - by rewrite has_id_union, E.
  - destruct (Collection.update_one oid data c) as [n c'].
    simpl in *. by rewrite E.
Qed.

Lemma delete_one_unmatched oid c :
  Collection.find_one oid c = None →
  Collection.delete_one oid c = (0%nat, c).
Proof.
  induction c as [|d c IH]; simpl; [done|].
  destruct (has_id oid d); [done|]. intros Hc. by rewrite IH.
Qed.

Lemma delete_one_matched oid c d :
  Collection.find_one oid c = Some d →
  ∃ i, c !! i = Some d ∧
       Collection.delete_one oid c = (1%nat, delete i c).
Proof.
  induction c as [|d0 c IH]; simpl; [done|].
  destruct (has_id oid d0).
  - intros [= ->]. by exists 0%nat.
  - intros Hc. destruct (IH Hc) as (i & Hi & ->). by exists (S i).
Qed.

Lemma delete_one_count oid c :
  (Collection.delete_one oid c).1 = 0%nat ∨
  (Collection.delete_one oid c).1 = 1%nat.
Proof.
  destruct (Collection.find_one oid c) as [d|] eqn:E.
  - destruct (delete_one_matched _ _ _ E) as (i & _ & ->). by right.
  - rewrite delete_one_unmatched by done. by left.
Qed.

End CollectionFacts.


Lemma find_one_None_not_elem (oid : ObjectId) (c : list (gmap string value)) :
  Some (VOid oid) ∉ (λ d : gmap string value, d !! "_id") <$> c →
  Collection.find_one oid c = None.
Proof.
  induction c as [|d c IH]; simpl; [done|].
  rewrite not_elem_of_cons. intros [Hd Hc].
  destruct (has_id oid d) eqn:E; [|by apply IH].
  apply has_id_lookup in E. congruence.
Qed.

Lemma find_one_delete_one (oid : ObjectId) (c : list (gmap string value)) :
  unique_ids c →
  Collection.find_one oid (Collection.delete_one oid c).2 = None.
Proof.
  unfold unique_ids. induction c as [|d c IH]; simpl; [done|].
  rewrite NoDup_cons. intros [Hd Hc].
  destruct (has_id oid d) eqn:E; simpl.
  - apply has_id_lookup in E. rewrite E in Hd.
    by apply find_one_None_not_elem.
  - destruct (Collection.delete_one oid c) as [n c'] eqn:Ec.
    simpl in *. rewrite E. by apply IH.
Qed.

(** ** The sparse update set *)

Lemma dump_field_lookup_ne {A} (inj : A → value) (k k' : string)
    (f : option (option A)) (m : gmap string value) :
  k ≠ k' → dump_field inj k f m !! k' = m !! k'.
Proof.
  intros Hk. destruct f as [[a|]|]; simpl; by rewrite ?lookup_insert_ne.
Qed.

Lemma update_data_no_id (p : ProductUpdate) : update_data p !! "_id" = None.
Proof.
  unfold update_data. apply map_lookup_filter_None_2. left.
  unfold model_dump_exclude_unset.
  by rewrite !dump_field_lookup_ne.
Qed.

Lemma update_data_not_None (p : ProductUpdate) (k : string) :
  update_data p !! k ≠ Some VNone.
Proof.
  unfold update_data. intros [_ Hv]%map_lookup_filter_Some. done.
Qed.

Lemma update_data_only_price (x : float) :
  update_data (only_price x) = {[ "price" := VFloat x ]}.
Proof. vm_compute. reflexivity. Qed.

Lemma update_data_no_fields : update_data no_fields = ∅.
Proof. vm_compute. reflexivity. Qed.


Lemma filter_dump_field {A} (inj : A → value) (k : string)
    (f : option (option A)) (m : gmap string value) :
  (∀ a, is_None (inj a) = false) →
  m !! k = None →
  filter (λ kv : string * value, is_None kv.2 = false) (dump_field inj k f m) =
  dump_field inj k (unset_null f)
    (filter (λ kv : string * value, is_None kv.2 = false) m).
Proof.
  intros Hinj Hk. destruct f as [[a|]|]; simpl.
  - rewrite map_filter_insert_True; [done | apply Hinj].
  - rewrite map_filter_insert_False by done. by rewrite delete_id.
  - done.
Qed.

(** The update set is the dump of the payload without its nulls. *)
Lemma update_data_dump (p : ProductUpdate) :
  update_data p = model_dump_exclude_unset (drop_nulls p).
Proof.
  unfold update_data, model_dump_exclude_unset, drop_nulls. simpl.
  rewrite !filter_dump_field; try done.
  all: by rewrite ?map_filter_empty, ?dump_field_lookup_ne.
Qed.

Lemma drop_nulls_idemp (p : ProductUpdate) :
  drop_nulls (drop_nulls p) = drop_nulls p.
Proof.
  destruct p as [[[?|]|] [[?|]|] [[?|]|] [[?|]|] [[?|]|]]; reflexivity.
Qed.

Lemma update_data_drop_nulls (p : ProductUpdate) :
  update_data (drop_nulls p) = update_data p.
Proof. by rewrite !update_data_dump, drop_nulls_idemp. Qed.

(** ** The handlers *)

Section HandlerFacts.
Context `{PyRuntime}.
Implicit Types (s : store) (p : ProductUpdate) (oid : ObjectId).


Lemma stamped_no_id p now : stamped p now !! "_id" = None.
Proof.
  unfold stamped. rewrite lookup_insert_ne by done. apply update_data_no_id.
Qed.

Lemma stamped_not_None p now k : stamped p now !! k ≠ Some VNone.
Proof.
  unfold stamped. destruct (decide (k = "updated_at")) as [->|Hk].
  - by rewrite lookup_insert_eq.
  - rewrite lookup_insert_ne by done. apply update_data_not_None.
Qed.

Lemma update_product_unconfigured product_id p now :
  update_product None product_id p now =
  (Raise (HTTPException 500 "Database not configured"), None).
Proof. done. Qed.

Lemma delete_product_unconfigured product_id :
  delete_product None product_id =
  (Raise (HTTPException 500 "Database not configured"), None).
Proof. done. Qed.

Lemma update_product_invalid s product_id p now :
  ObjectId_is_valid product_id = false →
  update_product (Some s) product_id p now =
  (Raise (HTTPException 400 "Invalid objectid"), Some s).
Proof.
  intros Hv. unfold update_product. autounfold with handlers.
  by rewrite validate_invalid.
Qed.

Lemma delete_product_invalid s product_id :
  ObjectId_is_valid product_id = false →
  delete_product (Some s) product_id =
  (Raise (HTTPException 400 "Invalid objectid"), Some s).
Proof.
  intros Hv. unfold delete_product. autounfold with handlers.
  by rewrite validate_invalid.
Qed.

Lemma update_product_no_data s product_id oid p now :
  PyObjectId.validate (IStr product_id) = Return oid →
  update_data p = ∅ →
  update_product (Some s) product_id p now =
  (Raise (HTTPException 400 "No fields to update"), Some s).
Proof.
  intros Hv Hd. unfold update_product. autounfold with handlers.
  rewrite Hv, Hd. done.
Qed.

(** The run of [update_product] past its two guards. *)
Lemma update_product_run s product_id oid p now :
  PyObjectId.validate (IStr product_id) = Return oid →
  update_data p ≠ ∅ →
  update_product (Some s) product_id p now =
  let r := Collection.update_one oid (stamped p now) (product s) in
  let s1 := mkStore r.2 (calls s ++ [CUpdateOne oid (stamped p now)]) in
  if (r.1 =? 0)%nat then
    (Raise (HTTPException 404 "Product not found"), Some s1)
  else
    (Return (serialize_doc (Collection.find_one oid r.2)),
     Some (log (CFindOne oid) s1)).
Proof.
  intros Hv Hd.
  unfold update_product. autounfold with handlers.
  rewrite Hv, (falsy_Some_false _ Hd).
  unfold Gateway.update_one, Gateway.find_one. fold (stamped p now).
  destruct (Collection.update_one oid (stamped p now) (product s))
    as [n c'] eqn:E.
  simpl. by destruct (n =? 0)%nat.
Qed.

(** The run of [delete_product] past its guard. *)
Lemma delete_product_run s product_id oid :
  PyObjectId.validate (IStr product_id) = Return oid →
  delete_product (Some s) product_id =
  let r := Collection.delete_one oid (product s) in
  let s1 := mkStore r.2 (calls s ++ [CDeleteOne oid]) in
  if (r.1 =? 0)%nat then
    (Raise (HTTPException 404 "Product not found"), Some s1)
  else (Return status_ok, Some s1).
Proof.
  intros Hv.
  unfold delete_product. autounfold with handlers.
  rewrite Hv. unfold Gateway.delete_one.
  destruct (Collection.delete_one oid (product s)) as [n c'] eqn:E.
  simpl. by destruct (n =? 0)%nat.
Qed.


(** C5: with a well-formed identifier, the payload [{}] fails with
    status 400, "No fields to update", and the store is as before. *)
Theorem empty_payload_rejected s product_id now :
  ObjectId_is_valid product_id = true →
  update_product (Some s) product_id no_fields now =
  (Raise (HTTPException 400 "No fields to update"), Some s).
Proof.
  intros (oid & Hv & _)%validate_valid.
  eapply update_product_no_data; [done|]. apply update_data_no_fields.
Qed.

(** C1: an update that supplies only [price] rewrites the stored
    document in place with the new price and the stamp; [title],
    [description], [category], [in_stock] and every other field keep
    their values, the other documents are untouched, and [updated_at]
    is the instant of the update. *)
Theorem update_price_only s product_id oid x now d :
  PyObjectId.validate (IStr product_id) = Return oid →
  Collection.find_one oid (product s) = Some d →
  ∃ i d' s',
    product s !! i = Some d ∧
    update_product (Some s) product_id (only_price x) now =
      (Return (serialize_doc (Some d')), Some s') ∧
    product s' = <[i := d']> (product s) ∧
    Collection.find_one oid (product s') = Some d' ∧
    d' !! "title" = d !! "title" ∧
    d' !! "description" = d !! "description" ∧
    d' !! "category" = d !! "category" ∧
    d' !! "in_stock" = d !! "in_stock" ∧
    d' !! "price" = Some (VFloat x) ∧
    d' !! "updated_at" = Some (VDate now) ∧
    ∀ k, k ≠ "price" → k ≠ "updated_at" → d' !! k = d !! k.
Proof.
  intros Hv Hd.
  assert (update_data (only_price x) ≠ ∅) as Hne.
  { rewrite update_data_only_price. apply insert_non_empty. }
  pose proof (find_one_update_one oid _ (product s)
                (stamped_no_id (only_price x) now)) as Hre.
  destruct (update_one_matched oid (stamped (only_price x) now) _ _ Hd)
    as (i & Hi & Hup).
  assert (stamped (only_price x) now ∪ d =
          <["updated_at" := VDate now]> (<["price" := VFloat x]> d)) as Hd'.
  { unfold stamped. rewrite update_data_only_price.
    rewrite <-insert_union_l. by rewrite <-insert_union_singleton_l. }
  exists i, (<["updated_at" := VDate now]> (<["price" := VFloat x]> d)).
  exists (mkStore (<[i := stamped (only_price x) now ∪ d]> (product s))
            (calls s ++ [CUpdateOne oid (stamped (only_price x) now);
                         CFindOne oid])).
  split; [exact Hi|].
  rewrite (update_product_run _ _ _ _ _ Hv Hne). rewrite Hup in *.
  cbn [fst snd Nat.eqb product] in *. rewrite Hd in Hre.
  cbn [fmap option_fmap option_map] in Hre. rewrite Hre, Hd'.
  split; [unfold log; cbn [product calls]; by rewrite <-app_assoc|].
  split; [reflexivity|]. split; [by rewrite <-Hd'|].
  split; [by rewrite !lookup_insert_ne|].
  split; [by rewrite !lookup_insert_ne|].
  split; [by rewrite !lookup_insert_ne|].
  split; [by rewrite !lookup_insert_ne|].
  split; [rewrite lookup_insert_ne by done; apply lookup_insert_eq|].
  split; [apply lookup_insert_eq|].
  intros k Hk1 Hk2. by rewrite !lookup_insert_ne.
Qed.

(** C3: with a well-formed identifier and a non-empty update set, an
    update that matches no document fails with status 404 and leaves
    the collection as it was; one that matches reads the document
    back by the same identifier and returns its client view. *)
Theorem update_not_found_or_reread s product_id oid p now :
  PyObjectId.validate (IStr product_id) = Return oid →
  update_data p ≠ ∅ →
  let r := Collection.update_one oid (stamped p now) (product s) in
  (r.1 = 0%nat →
     Collection.find_one oid (product s) = None ∧
     update_product (Some s) product_id p now =
       (Raise (HTTPException 404 "Product not found"),
        Some (log (CUpdateOne oid (stamped p now)) s))) ∧
  (r.1 ≠ 0%nat →
     ∃ d, Collection.find_one oid (product s) = Some d ∧
          Collection.find_one oid r.2 = Some (stamped p now ∪ d) ∧
          update_product (Some s) product_id p now =
            (Return (serialize_doc (Collection.find_one oid r.2)),
             Some (mkStore r.2
                     (calls s ++ [CUpdateOne oid (stamped p now);
                                  CFindOne oid])))).
Proof.
  intros Hv Hne r.
  pose proof (find_one_update_one oid _ (product s) (stamped_no_id p now))
    as Hre. fold r in Hre.
  rewrite (update_product_run _ _ _ _ _ Hv Hne). fold r.
  destruct (Collection.find_one oid (product s)) as [d|] eqn:Hd.
  - destruct (update_one_matched oid (stamped p now) _ _ Hd)
      as (i & Hi & Hup).
    subst r. rewrite Hup in *. simpl in *. split; [done|].
    intros _. exists d. split; [done|]. split; [done|].
    unfold log. simpl. by rewrite <-app_assoc.
  - subst r. rewrite (update_one_unmatched _ _ _ Hd) in *. simpl.
    split; [|done]. intros _. split; [done|]. done.
Qed.

End HandlerFacts.

(** ** Deleting *)

(** C4: with a well-formed identifier, delete answers [{status: ok}]
    exactly when the store removed one document and fails with status
    404 when it removed none; where identifiers are unique, a second
    delete of the same identifier fails with status 404. *)
Theorem delete_ok_iff_deleted (s : store) (product_id : string) (oid : ObjectId) :
  PyObjectId.validate (IStr product_id) = Return oid →
  let r := Collection.delete_one oid (product s) in
  let s1 := mkStore r.2 (calls s ++ [CDeleteOne oid]) in
  (r.1 = 0%nat ∨ r.1 = 1%nat) ∧
  (r.1 = 1%nat →
     delete_product (Some s) product_id = (Return status_ok, Some s1)) ∧
  (r.1 = 0%nat →
     r.2 = product s ∧
     delete_product (Some s) product_id =
       (Raise (HTTPException 404 "Product not found"), Some s1)) ∧
  ((delete_product (Some s) product_id).1 = Return status_ok ↔ r.1 = 1%nat) ∧
  (unique_ids (product s) →
     (delete_product (delete_product (Some s) product_id).2 product_id).1 =
     Raise (HTTPException 404 "Product not found")).
Proof.
  intros Hv r s1.
  pose proof (delete_one_count oid (product s)) as Hcount. fold r in Hcount.
  pose proof (delete_product_run s product_id oid Hv) as Hrun.
  cbv zeta in Hrun. fold r in Hrun. fold s1 in Hrun.
  split; [done|]. split; [|split; [|split]].
  - intros Hr. rewrite Hrun, Hr. done.
  - intros Hr. rewrite Hrun, Hr. split; [|done].
    destruct (Collection.find_one oid (product s)) as [d|] eqn:Hd.
    + destruct (delete_one_matched _ _ _ Hd) as (i & _ & Hdel).
      subst r. by rewrite Hdel in Hr.
    + subst r. by rewrite delete_one_unmatched.
  - rewrite Hrun. destruct Hcount as [-> | ->]; simpl; split; done.
  - intros Huniq.
    assert ((delete_product (Some s) product_id).2 = Some s1) as ->.
    { rewrite Hrun. by destruct (r.1 =? 0)%nat. }
    rewrite (delete_product_run s1 product_id oid Hv). simpl.
    rewrite (delete_one_unmatched oid r.2); [done|].
    by apply find_one_delete_one.
Qed.

(** ** Nulls in an update *)

Lemma update_one_lookup (oid : ObjectId) (data : gmap string value)
    (c : list (gmap string value)) (i : nat) (d : gmap string value) :
  c !! i = Some d →
  (Collection.update_one oid data c).2 !! i = Some d ∨
  (Collection.update_one oid data c).2 !! i = Some (data ∪ d).
Proof.
  revert i. induction c as [|d0 c IH]; intros i Hi; [done|]. simpl.
  destruct (has_id oid d0); simpl.
  - destruct i as [|i]; simpl in *; [|by left].
    injection Hi as ->. by right.
  - destruct (Collection.update_one oid data c) as [n c'] eqn:E. simpl in *.
    destruct i as [|i]; simpl in *; [by left|]. by apply IH.
Qed.

Section Nulls.
Context `{PyRuntime}.

Lemma update_product_drop_nulls db product_id p now :
  update_product db product_id (drop_nulls p) now =
  update_product db product_id p now.
Proof.
  unfold update_product. by rewrite update_data_drop_nulls.
Qed.

(** The collection after an update: as before, or with the set
    [stamped p now] written by [update_one]. *)
Lemma update_product_collection s product_id p now :
  ∃ s', (update_product (Some s) product_id p now).2 = Some s' ∧
        (product s' = product s ∨
         ∃ oid, product s' =
                (Collection.update_one oid (stamped p now) (product s)).2).
Proof.
  destruct (ObjectId_is_valid product_id) eqn:Hvalid.
  - destruct (validate_valid _ Hvalid) as (oid & Hv & _).
    destruct (decide (update_data p = ∅)) as [Hd|Hd].
    + rewrite (update_product_no_data _ _ _ _ _ Hv Hd). eauto.
    + rewrite (update_product_run _ _ _ _ _ Hv Hd). cbv zeta.
      destruct (_ =? 0)%nat; simpl; eauto.
  - rewrite update_product_invalid by done. eauto.
Qed.

(** C6: the update set of a payload is that of the payload with its
    nulls taken for unset, and the handler answers the same on both;
    a payload of nulls only is handled as [{}]; no value of the set
    is null, and no stored field that holds a value holds null after
    an update. *)
Theorem nulls_are_not_set (db : option store) (product_id : string)
    (p : ProductUpdate) (now : Z) :
  update_data p = model_dump_exclude_unset (drop_nulls p) ∧
  update_data p = update_data (drop_nulls p) ∧
  update_product db product_id p now =
    update_product db product_id (drop_nulls p) now ∧
  (drop_nulls p = no_fields →
     update_product db product_id p now =
     update_product db product_id no_fields now) ∧
  (∀ k v, stamped p now !! k = Some v → is_None v = false) ∧
  (∀ s i d k v,
     db = Some s → product s !! i = Some d →
     d !! k = Some v → is_None v = false →
     ∃ s' d' v',
       (update_product db product_id p now).2 = Some s' ∧
       product s' !! i = Some d' ∧
       d' !! k = Some v' ∧ is_None v' = false).
Proof.
  split; [apply update_data_dump|].
  split; [by rewrite update_data_drop_nulls|].
  split; [by rewrite update_product_drop_nulls|].
  assert (∀ k v, stamped p now !! k = Some v → is_None v = false) as Hset.
  { intros k v Hk. destruct v; try done.
    by apply stamped_not_None in Hk. }
  split; [|split; [done|]].
  - intros <-. by rewrite update_product_drop_nulls.
  - intros s i d k v -> Hi Hk Hv.
    destruct (update_product_collection s product_id p now)
      as (s' & Hs' & Hc).
    exists s'. destruct Hc as [Hc | [oid Hc]].
    + exists d, v. by rewrite Hc.
    + rewrite Hc.
      destruct (update_one_lookup oid (stamped p now) _ _ _ Hi) as [Hl|Hl].
      * by exists d, v.
      * exists (stamped p now ∪ d).
        destruct (stamped p now !! k) as [w|] eqn:Hw.
        -- exists w. rewrite (lookup_union_Some_l _ _ _ _ Hw). eauto.
        -- exists v. rewrite lookup_union_r by done. eauto.
Qed.

End Nulls.

(** ** Listing *)

#[global] Instance newer_first_total : Total newer_first.
Proof.
  intros d1 d2. unfold newer_first.
  destruct (created_at_key d1), (created_at_key d2); simpl; auto.
  rewrite !Z.leb_le. lia.
Qed.

#[global] Instance newer_first_trans : Transitive newer_first.
Proof.
  intros d1 d2 d3. unfold newer_first.
  destruct (created_at_key d1), (created_at_key d2), (created_at_key d3);
    simpl; auto; try done.
  rewrite !Z.leb_le. lia.
Qed.


Section Listing.
Context `{PyRuntime}.

Lemma created_at_key_view (d : gmap string value) :
  created_at_key (default ∅ (serialize_doc (Some d))) = created_at_key d.
Proof.
  destruct (decide (d = ∅)) as [->|Hd].
  - reflexivity.
  - rewrite serialize_doc_Some by done. simpl. unfold created_at_key.
    rewrite lookup_delete_ne by done. by rewrite lookup_insert_ne.
Qed.

(** C7: without a store handle the listing is empty; with one, it is
    the client views of the stored products, all of them, newest
    [created_at] first, and empty when the collection is. *)
Theorem list_products_newest_first :
  list_products None = (Return [], None) ∧
  ∀ s, ∃ docs,
    list_products (Some s) =
      (Return ((λ d, serialize_doc (Some d)) <$> docs),
       Some (log CFindSorted s)) ∧
    docs ≡ₚ product s ∧
    StronglySorted newer_first docs ∧
    StronglySorted view_newer_first
      ((λ d, serialize_doc (Some d)) <$> docs) ∧
    (product s = [] → docs = []).
Proof.
  split; [done|]. intros s.
  exists (Collection.find_sorted (product s)).
  unfold Collection.find_sorted.
  split; [done|]. split; [apply merge_sort_Permutation|].
  split; [apply StronglySorted_merge_sort; apply _|].
  split.
  - eapply StronglySorted_fmap;
      [|apply StronglySorted_merge_sort; apply _].
    intros d1 d2. unfold view_newer_first, newer_first.
    by rewrite !created_at_key_view.
  - by intros ->.
Qed.

End Listing.

(** ** Worked instances

    The shop holds a tree and a star; [tree_hex] names the tree. *)

Example list_products_shop :
  @list_products plain_runtime (Some shop) =
  (Return [Some (<["id" := VStr "010101010101010101010101"]> (delete "_id" star));
           Some (<["id" := VStr tree_hex]> (delete "_id" tree))],
   Some (mkStore [tree; star] [CFindSorted])).
Proof. reflexivity. Qed.

Example str_of_upper_case_identifier :
  PyObjectId.validate (IStr "ABABABABABABABABABABABAB") = Return tree_id ∧
  @py_str plain_runtime (VOid tree_id) = tree_hex.
Proof. split; reflexivity. Qed.

Lemma serialize_doc_client_view_tree :
  tree !! "_id" = Some (VOid tree_id) ∧
  ∃ view,
    @serialize_doc plain_runtime (Some tree) = Some view ∧
    view = <["id" := VStr (@py_str plain_runtime (VOid tree_id))]>
             (delete "_id" tree) ∧
    view !! "_id" = None ∧
    view !! "id" = Some (VStr (@py_str plain_runtime (VOid tree_id))) ∧
    ∀ k, k ≠ "_id" → k ≠ "id" → view !! k = tree !! k.
Proof.
  split; [reflexivity|].
  apply (@serialize_doc_client_view plain_runtime tree (VOid tree_id)).
  reflexivity.
Defined.

Lemma serialize_doc_passthrough_empty :
  (Some (∅ : gmap string value) = None ∨
   Some (∅ : gmap string value) = Some ∅) ∧
  @serialize_doc plain_runtime (Some ∅) = Some ∅.
Proof.
  split; [by right|].
  apply (@serialize_doc_passthrough plain_runtime (Some ∅)). by right.
Defined.

Lemma serialize_doc_without_id_status :
  status_ok ≠ ∅ ∧ status_ok !! "_id" = None ∧
  @serialize_doc plain_runtime (Some status_ok) =
    Some (<["id" := VStr "None"]> status_ok) ∧
  ∀ k, k ≠ "id" → (<["id" := VStr "None"]> status_ok) !! k = status_ok !! k.
Proof.
  split; [apply insert_non_empty|]. split; [reflexivity|].
  apply (@serialize_doc_without_id plain_runtime status_ok);
    [apply insert_non_empty | reflexivity].
Defined.


Lemma empty_payload_rejected_tree :
  ObjectId_is_valid tree_hex = true ∧
  @update_product plain_runtime (Some shop) tree_hex no_fields 100 =
    (Raise (HTTPException 400 "No fields to update"), Some shop).
Proof.
  split; [reflexivity|].
  apply (@empty_payload_rejected plain_runtime shop tree_hex 100).
  reflexivity.
Defined.

Lemma update_price_only_tree :
  PyObjectId.validate (IStr tree_hex) = Return tree_id ∧
  Collection.find_one tree_id (product shop) = Some tree ∧
  ∃ i d' s',
    product shop !! i = Some tree ∧
    @update_product plain_runtime (Some shop) tree_hex (only_price 39.5) 100 =
      (Return (@serialize_doc plain_runtime (Some d')), Some s') ∧
    product s' = <[i := d']> (product shop) ∧
    Collection.find_one tree_id (product s') = Some d' ∧
    d' !! "title" = tree !! "title" ∧
    d' !! "description" = tree !! "description" ∧
    d' !! "category" = tree !! "category" ∧
    d' !! "in_stock" = tree !! "in_stock" ∧
    d' !! "price" = Some (VFloat 39.5) ∧
    d' !! "updated_at" = Some (VDate 100) ∧
    ∀ k, k ≠ "price" → k ≠ "updated_at" → d' !! k = tree !! k.
Proof.
  split; [reflexivity|]. split; [reflexivity|].
  apply (@update_price_only plain_runtime shop tree_hex tree_id 39.5 100 tree);
    reflexivity.
Defined.

Lemma update_not_found_or_reread_tree :
  PyObjectId.validate (IStr tree_hex) = Return tree_id ∧
  update_data (only_price 39.5) ≠ ∅ ∧
  let p := only_price 39.5 in
  let r := Collection.update_one tree_id (stamped p 100) (product shop) in
  (r.1 = 0%nat →
     Collection.find_one tree_id (product shop) = None ∧
     @update_product plain_runtime (Some shop) tree_hex p 100 =
       (Raise (HTTPException 404 "Product not found"),
        Some (log (CUpdateOne tree_id (stamped p 100)) shop))) ∧
  (r.1 ≠ 0%nat →
     ∃ d, Collection.find_one tree_id (product shop) = Some d ∧
          Collection.find_one tree_id r.2 = Some (stamped p 100 ∪ d) ∧
          @update_product plain_runtime (Some shop) tree_hex p 100 =
            (Return (@serialize_doc plain_runtime
                       (Collection.find_one tree_id r.2)),
             Some (mkStore r.2
                     (calls shop ++ [CUpdateOne tree_id (stamped p 100);
                                     CFindOne tree_id])))).
Proof.
  assert (update_data (only_price 39.5) ≠ ∅) as Hne.
  { rewrite update_data_only_price. apply insert_non_empty. }
  split; [vm_compute; reflexivity|]. split; [exact Hne|].
  apply (@update_not_found_or_reread plain_runtime shop tree_hex tree_id
           (only_price 39.5) 100); [vm_compute; reflexivity | exact Hne].
Defined.

Lemma delete_ok_iff_deleted_tree :
  PyObjectId.validate (IStr tree_hex) = Return tree_id ∧
  unique_ids (product shop) ∧
  delete_product (Some shop) tree_hex =
    (Return status_ok, Some (mkStore [star] [CDeleteOne tree_id])) ∧
  (delete_product (delete_product (Some shop) tree_hex).2 tree_hex).1 =
    Raise (HTTPException 404 "Product not found").
Proof.
  assert (unique_ids (product shop)) as Huniq.
  { unfold unique_ids. simpl. apply NoDup_cons_2; [|apply NoDup_singleton].
    intros E%list_elem_of_singleton. vm_compute in E. discriminate E. }
  assert (PyObjectId.validate (IStr tree_hex) = Return tree_id) as Hv
    by (vm_compute; reflexivity).
  destruct (delete_ok_iff_deleted shop tree_hex tree_id Hv)
    as (_ & Hok & _ & _ & Htwice).
  split; [exact Hv|]. split; [exact Huniq|].
  split; [apply Hok; reflexivity | apply Htwice; exact Huniq].
Defined.

Lemma nulls_are_not_set_description :
  let p := mkProductUpdate None (Some None) (Some (Some 39.5%float)) None None in
  update_data p = {[ "price" := VFloat 39.5 ]} ∧
  @update_product plain_runtime (Some shop) tree_hex p 100 =
  @update_product plain_runtime (Some shop) tree_hex (only_price 39.5) 100.
Proof.
  intros p. split; [vm_compute; reflexivity|].
  apply (@nulls_are_not_set plain_runtime (Some shop) tree_hex p 100).
Defined.

(** * Further properties *)

(** ** The codec: round trips between strings and identifiers *)

Lemma hex_value_digit (c : ascii) (h : N) :
  hex_value c = Some h → (h < 16)%N ∧ hex_digit h = ascii_lower c.
Proof.
  unfold hex_value, hex_digit, ascii_lower. cbv zeta.
  pose proof (ascii_N_embedding c) as Hc. revert Hc.
  generalize (N_of_ascii c). intros n Hc.
  destruct ((48 <=? n) && (n <=? 57))%N eqn:E1.
  { apply andb_prop in E1 as [L U]. apply N.leb_le in L, U.
    intros [= <-]. split; [lia|].
    destruct ((65 <=? n) && (n <=? 90))%N eqn:E; [apply andb_prop in E as [L' _]; apply N.leb_le in L'; lia|].
    destruct (n - 48 <? 10)%N eqn:E'; [|apply N.ltb_ge in E'; lia].
    rewrite <-Hc. f_equal. lia. }
  destruct ((97 <=? n) && (n <=? 102))%N eqn:E2.
  { apply andb_prop in E2 as [L U]. apply N.leb_le in L, U.
    intros [= <-]. split; [lia|].
    destruct ((65 <=? n) && (n <=? 90))%N eqn:E; [apply andb_prop in E as [_ U']; apply N.leb_le in U'; lia|].
    destruct (n - 87 <? 10)%N eqn:E'; [apply N.ltb_lt in E'; lia|].
    rewrite <-Hc. f_equal. lia. }
  destruct ((65 <=? n) && (n <=? 70))%N eqn:E3; [|done].
  apply andb_prop in E3 as [L U]. apply N.leb_le in L, U.
  intros [= <-]. split; [lia|].
  destruct ((65 <=? n) && (n <=? 90))%N eqn:E.
  - destruct (n - 55 <? 10)%N eqn:E'; [apply N.ltb_lt in E'; lia|].
    f_equal. lia.
  - apply andb_false_iff in E as [E|E]; apply N.leb_gt in E; lia.
Qed.

Lemma hex_digit_value (h : N) :
  (h < 16)%N → hex_value (hex_digit h) = Some h.
Proof.
  intros Hh. destruct h as [|p]; [reflexivity|].
  do 4 (destruct p as [p|p|]; try reflexivity); lia.
Qed.

Lemma hexlify_length (bs : list N) :
  String.length (hexlify bs) = (2 * length bs)%nat.
Proof. induction bs as [|b bs IH]; simpl; [done | rewrite IH; lia]. Qed.

Lemma string_lower_length (s : string) :
  String.length (string_lower s) = String.length s.
Proof. induction s as [|c s IH]; simpl; [done | by rewrite IH]. Qed.

Lemma without_space_length (s : string) :
  (String.length (without_space s) ≤ String.length s)%nat.
Proof.
  induction s as [|c s IH]; simpl; [done|].
  destruct (is_space c); simpl; lia.
Qed.

Lemma without_space_id (s : string) :
  String.length (without_space s) = String.length s ↔ without_space s = s.
Proof.
  split; [|by intros ->].
  induction s as [|c s IH]; simpl; [done|].
  pose proof (without_space_length s).
  destruct (is_space c); simpl; [lia|]. intros [= E]. by rewrite IH.
Qed.

Lemma hexlify_fromhex (v : string) (bs : list N) :
  fromhex v = Some bs → hexlify bs = string_lower (without_space v).
Proof.
  revert bs. functional induction (fromhex v); intros bs' E; simpl;
    try done.
  - by injection E as <-.
  - rewrite e0. by apply IHo.
  - rewrite e0, (hex_value_not_space _ _ e3). injection E as <-. simpl.
    apply hex_value_digit in e2 as [H1 <-].
    apply hex_value_digit in e3 as [H2 <-].
    rewrite (IHo bs e4).
    replace ((16 * hi + lo) / 16)%N with hi
      by (apply (N.div_unique _ 16 hi lo); [done | lia]).
    replace ((16 * hi + lo) mod 16)%N with lo
      by (apply (N.mod_unique _ 16 hi lo); [done | lia]).
    done.
Qed.

Lemma fromhex_bytes (v : string) (bs : list N) :
  fromhex v = Some bs → Forall (λ b, (b < 256)%N) bs.
Proof.
  revert bs. functional induction (fromhex v); intros bs' E; try done.
  - injection E as <-. constructor.
  - by apply IHo.
  - injection E as <-.
    apply hex_value_digit in e2 as [H1 _].
    apply hex_value_digit in e3 as [H2 _].
    constructor; [lia | by apply IHo].
Qed.

Lemma fromhex_hexlify (bs : list N) :
  Forall (λ b, (b < 256)%N) bs → fromhex (hexlify bs) = Some bs.
Proof.
  induction 1 as [|b bs Hb _ IH]; [done|].
  assert (b / 16 < 16)%N as Hhi by (apply N.Div0.div_lt_upper_bound; lia).
  assert (b mod 16 < 16)%N as Hlo by (apply N.mod_lt; lia).
  assert (16 * (b / 16) + b mod 16 = b)%N as Hb16
    by (symmetry; apply N.div_mod; lia).
  simpl.
  rewrite (hex_value_not_space _ _ (hex_digit_value _ Hhi)).
  by rewrite !hex_digit_value, IH, Hb16.
Qed.

Lemma validate_Return_fromhex (v : string) (oid : ObjectId) :
  PyObjectId.validate (IStr v) = Return oid →
  fromhex v = Some (binary oid) ∧ String.length v = 24%nat.
Proof.
  unfold PyObjectId.validate, ObjectId_new.
  destruct (ObjectId_is_valid v); [|done]. simpl.
  destruct (String.length v =? 24)%nat eqn:Hlen; [|done].
  apply Nat.eqb_eq in Hlen.
  destruct (fromhex v); [|done]. by intros [= <-].
Qed.

Lemma str_validate (v : string) (oid : ObjectId) :
  PyObjectId.validate (IStr v) = Return oid →
  hexlify (binary oid) = string_lower (without_space v).
Proof. intros [Hv _]%validate_Return_fromhex. by apply hexlify_fromhex. Qed.

Lemma validate_of_new (v : string) (oid : ObjectId) :
  ObjectId_new v = Return oid → PyObjectId.validate (IStr v) = Return oid.
Proof.
  intros Hnew. unfold PyObjectId.validate.
  by rewrite (proj2 (ObjectId_is_valid_new v) (ex_intro _ oid Hnew)).
Qed.

Lemma validate_str (oid : ObjectId) :
  length (binary oid) = 12%nat →
  Forall (λ b, (b < 256)%N) (binary oid) →
  PyObjectId.validate (IStr (hexlify (binary oid))) = Return oid.
Proof.
  intros Hlen Hb. apply validate_of_new. unfold ObjectId_new.
  rewrite hexlify_length, Hlen, (fromhex_hexlify _ Hb). simpl.
  by destruct oid.
Qed.

(** The string form of an identifier of another length is not valid. *)
Lemma validate_str_short (oid : ObjectId) :
  length (binary oid) ≠ 12%nat →
  PyObjectId.validate (IStr (hexlify (binary oid))) =
  Raise (ValueError "Invalid objectid").
Proof.
  intros Hlen. apply validate_invalid, ObjectId_is_valid_false. left.
  rewrite hexlify_length. lia.
Qed.

Lemma hex_value_lower (c : ascii) : hex_value (ascii_lower c) = hex_value c.
Proof.
  unfold ascii_lower. cbv zeta.
  destruct ((65 <=? N_of_ascii c) && (N_of_ascii c <=? 90))%N eqn:E; [|done].
  apply andb_prop in E as [L U]. apply N.leb_le in L, U.
  unfold hex_value. cbv zeta.
  rewrite N_ascii_embedding by lia.
  generalize dependent (N_of_ascii c). intros n L U.
  destruct ((48 <=? n) && (n <=? 57))%N eqn:E1;
    [apply andb_prop in E1 as [_ U1]; apply N.leb_le in U1; lia|].
  destruct ((97 <=? n) && (n <=? 102))%N eqn:E2;
    [apply andb_prop in E2 as [L2 _]; apply N.leb_le in L2; lia|].
  destruct ((48 <=? n + 32) && (n + 32 <=? 57))%N eqn:E3;
    [apply andb_prop in E3 as [_ U3]; apply N.leb_le in U3; lia|].
  destruct ((65 <=? n + 32) && (n + 32 <=? 70))%N eqn:E4;
    [apply andb_prop in E4 as [_ U4]; apply N.leb_le in U4; lia|].
  destruct (N.le_gt_cases n 70) as [E5|E5].
  - replace ((97 <=? n + 32) && (n + 32 <=? 102))%N with true
      by (symmetry; apply andb_true_intro; split; apply N.leb_le; lia).
    replace ((65 <=? n) && (n <=? 70))%N with true
      by (symmetry; apply andb_true_intro; split; apply N.leb_le; lia).
    f_equal. lia.
  - replace ((97 <=? n + 32) && (n + 32 <=? 102))%N with false
      by (symmetry; apply andb_false_iff; right; apply N.leb_gt; lia).
    replace ((65 <=? n) && (n <=? 70))%N with false
      by (symmetry; apply andb_false_iff; right; apply N.leb_gt; lia).
    done.
Qed.

Lemma is_space_lower (c : ascii) : is_space (ascii_lower c) = is_space c.
Proof.
  unfold ascii_lower. cbv zeta.
  destruct ((65 <=? N_of_ascii c) && (N_of_ascii c <=? 90))%N eqn:E; [|done].
  apply andb_prop in E as [L U]. apply N.leb_le in L, U.
  unfold is_space. cbv zeta. rewrite N_ascii_embedding by lia.
  generalize dependent (N_of_ascii c). intros n L U.
  replace (n + 32 =? 32)%N with false by (symmetry; apply N.eqb_neq; lia).
  replace (n =? 32)%N with false by (symmetry; apply N.eqb_neq; lia).
  replace (n + 32 <=? 13)%N with false by (symmetry; apply N.leb_gt; lia).
  replace (n <=? 13)%N with false by (symmetry; apply N.leb_gt; lia).
  by rewrite !andb_false_r.
Qed.

Lemma fromhex_lower (v : string) : fromhex (string_lower v) = fromhex v.
Proof.
  functional induction (fromhex v); simpl;
    rewrite ?is_space_lower, ?hex_value_lower, ?e0, ?e2, ?e3; try done.
  - by rewrite IHo, e4.
  - by rewrite IHo, e4.
Qed.

Lemma ObjectId_new_lower (v : string) (oid : ObjectId) :
  ObjectId_new v = Return oid → ObjectId_new (string_lower v) = Return oid.
Proof.
  unfold ObjectId_new. rewrite string_lower_length, fromhex_lower.
  destruct (String.length v =? 24)%nat; [|done]. by destruct (fromhex v).
Qed.

Lemma ObjectId_is_valid_lower (v : string) :
  ObjectId_is_valid (string_lower v) = ObjectId_is_valid v.
Proof.
  destruct v as [|c v]; [done|]. unfold ObjectId_is_valid.
  change (String (ascii_lower c) (string_lower v))
    with (string_lower (String c v)).
  cbn [string_lower]. unfold ObjectId_new.
  change (String (ascii_lower c) (string_lower v))
    with (string_lower (String c v)).
  rewrite string_lower_length, fromhex_lower.
  destruct (String.length (String c v) =? 24)%nat; [|done].
  by destruct (fromhex (String c v)).
Qed.

Lemma validate_lower (v : string) (oid : ObjectId) :
  PyObjectId.validate (IStr v) = Return oid →
  PyObjectId.validate (IStr (string_lower v)) = Return oid.
Proof.
  intros Hv. apply validate_of_new, ObjectId_new_lower.
  destruct (validate_valid v (validate_Return_valid _ _ Hv))
    as (oid' & Hv' & Hnew).
  rewrite Hv in Hv'. by injection Hv' as <-.
Qed.

Lemma validate_lower_eq (v : string) :
  PyObjectId.validate (IStr (string_lower v)) = PyObjectId.validate (IStr v).
Proof.
  destruct (ObjectId_is_valid v) eqn:Hvalid.
  - destruct (validate_valid v Hvalid) as (oid & Hv & _).
    rewrite Hv. by apply validate_lower.
  - rewrite !validate_invalid; [done | done |].
    by rewrite ObjectId_is_valid_lower.
Qed.

(** X1: on a string, [validate] answers with an identifier when the
    driver's check accepts the string and raises [ValueError] with the
    text "Invalid objectid" when it does not; the constructor's own
    [InvalidId] never comes out.  The identifier has at most twelve
    bytes, and twelve exactly when the string holds no whitespace. *)
Theorem validate_answers (v : string) :
  (ObjectId_is_valid v = true ∧
   ∃ oid, PyObjectId.validate (IStr v) = Return oid ∧
          (length (binary oid) ≤ 12)%nat ∧
          Forall (λ b, (b < 256)%N) (binary oid) ∧
          (length (binary oid) = 12%nat ↔ without_space v = v)) ∨
  (ObjectId_is_valid v = false ∧
   PyObjectId.validate (IStr v) = Raise (ValueError "Invalid objectid")).
Proof.
  destruct (ObjectId_is_valid v) eqn:Hvalid; [left | right].
  - split; [done|]. destruct (validate_valid v Hvalid) as (oid & Hv & _).
    exists oid. split; [done|].
    destruct (validate_Return_fromhex _ _ Hv) as [Hf Hlen].
    pose proof (hexlify_length (binary oid)) as Hl.
    rewrite (hexlify_fromhex _ _ Hf), string_lower_length in Hl.
    pose proof (without_space_length v) as Hle.
    split; [lia|]. split; [by eapply fromhex_bytes|].
    rewrite <-without_space_id. lia.
  - split; [done|]. by apply validate_invalid.
Qed.

(** X2: the string form of a validated identifier is the string it was
    read from, without its whitespace and in lower case; validating
    the identifier itself returns it; validating its string form
    returns it when the string held no whitespace and raises
    [ValueError] when it did. *)
Theorem validate_str_round_trip `{PyRuntime} (v : string) (oid : ObjectId) :
  PyObjectId.validate (IStr v) = Return oid →
  py_str (VOid oid) = string_lower (without_space v) ∧
  PyObjectId.validate (IOid oid) = Return oid ∧
  (without_space v = v →
   PyObjectId.validate (IStr (py_str (VOid oid))) = Return oid) ∧
  (without_space v ≠ v →
   PyObjectId.validate (IStr (py_str (VOid oid))) =
   Raise (ValueError "Invalid objectid")).
Proof.
  intros Hv. cbn [py_str].
  destruct (validate_Return_fromhex _ _ Hv) as [Hf Hlen].
  pose proof (hexlify_length (binary oid)) as Hl.
  rewrite (hexlify_fromhex _ _ Hf), string_lower_length in Hl.
  split; [by apply str_validate|]. split; [done|]. split.
  - intros Hws. apply validate_str; [|by eapply fromhex_bytes].
    rewrite Hws in Hl. lia.
  - intros Hws. apply validate_str_short. intros H12.
    apply Hws, without_space_id. lia.
Qed.

(** X3: strings that agree up to the case of their letters are
    validated alike, to the same identifier or to the same error; and
    two accepted strings give the same identifier exactly when they
    agree up to case and whitespace. *)
Theorem validate_up_to_case (v1 v2 : string) :
  (string_lower v1 = string_lower v2 →
   PyObjectId.validate (IStr v1) = PyObjectId.validate (IStr v2)) ∧
  (∀ oid1 oid2,
     PyObjectId.validate (IStr v1) = Return oid1 →
     PyObjectId.validate (IStr v2) = Return oid2 →
     (oid1 = oid2 ↔
      string_lower (without_space v1) = string_lower (without_space v2))).
Proof.
  split.
  - intros Hl. by rewrite <-(validate_lower_eq v1), <-(validate_lower_eq v2), Hl.
  - intros oid1 oid2 H1 H2.
    rewrite <-(str_validate _ _ H1), <-(str_validate _ _ H2).
    split; [by intros ->|]. intros Hhex.
    destruct (validate_Return_fromhex _ _ H1) as [Hf1%fromhex_bytes _].
    destruct (validate_Return_fromhex _ _ H2) as [Hf2%fromhex_bytes _].
    apply fromhex_hexlify in Hf1, Hf2. rewrite Hhex, Hf2 in Hf1.
    destruct oid1, oid2. simpl in *. by injection Hf1 as ->.
Qed.

(** X4: the string form of a twelve-byte identifier is a valid
    identifier string and is validated to that identifier. *)
Theorem str_validate_round_trip `{PyRuntime} (oid : ObjectId) :
  length (binary oid) = 12%nat →
  Forall (λ b, (b < 256)%N) (binary oid) →
  ObjectId_is_valid (py_str (VOid oid)) = true ∧
  PyObjectId.validate (IStr (py_str (VOid oid))) = Return oid.
Proof.
  intros Hlen Hb. pose proof (validate_str oid Hlen Hb) as Hv.
  split; [|done]. by eapply validate_Return_valid.
Qed.

(** ** The serializer: keys of a view, and a second pass *)

Section SerializerMore.
Context `{PyRuntime}.

Lemma serialize_doc_view_nonempty (d : gmap string value) :
  d ≠ ∅ →
  ∃ view, serialize_doc (Some d) = Some view ∧ view ≠ ∅ ∧
          view !! "_id" = None ∧
          view = <["id" := VStr (py_str (dict_get d "_id"))]> (delete "_id" d).
Proof.
  intros Hd. eexists. split; [by apply serialize_doc_Some|].
  rewrite delete_insert_ne by done.
  split; [apply insert_non_empty|]. split; [|done].
  rewrite lookup_insert_ne by done. apply lookup_delete_eq.
Qed.

(** X5: whatever the input, a view has no [_id]; a view that is not
    empty has a string under [id]; and the keys of the view of a
    non-empty document are those of the document, without [_id] and
    with [id]. *)
Theorem serialize_doc_keys (doc : option (gmap string value))
    (view : gmap string value) :
  serialize_doc doc = Some view →
  view !! "_id" = None ∧
  (view = ∅ ∨ ∃ s, view !! "id" = Some (VStr s)) ∧
  (∀ d, doc = Some d → d ≠ ∅ →
        dom view = {[ "id" ]} ∪ (dom d ∖ {[ "_id" ]})).
Proof.
  destruct doc as [d|]; [|done].
  destruct (decide (d = ∅)) as [->|Hd].
  - intros [= <-]. split; [done|]. split; [by left|]. by intros d [= <-].
  - destruct (serialize_doc_view_nonempty d Hd) as (v & -> & _ & Hid & Hv).
    intros [= <-]. split; [done|]. split.
    + right. eexists. rewrite Hv. apply lookup_insert_eq.
    + intros d' [= <-] _. rewrite Hv.
      by rewrite dom_insert_L, dom_delete_L.
Qed.

(** X6: the serializer applied to its own output loses the identifier:
    the second pass finds no [_id] and writes [id = "None"]. *)
Theorem serialize_doc_twice (d : gmap string value) :
  d ≠ ∅ →
  serialize_doc (serialize_doc (Some d)) =
  Some (<["id" := VStr "None"]> (delete "_id" d)).
Proof.
  intros Hd.
  destruct (serialize_doc_view_nonempty d Hd) as (v & -> & Hne & Hid & Hv).
  rewrite serialize_doc_Some by done. unfold dict_get. rewrite Hid. simpl.
  rewrite delete_insert_ne by done. rewrite (delete_id v) by done.
  by rewrite Hv, insert_insert_eq.
Qed.

End SerializerMore.

(** ** The collection, further *)

Section CollectionMore.
Implicit Types (c : list (gmap string value)) (d data : gmap string value).
Implicit Types (oid : ObjectId).

Lemma find_one_has_id oid c d :
  Collection.find_one oid c = Some d → has_id oid d = true ∧ d ∈ c.
Proof.
  induction c as [|d0 c IH]; simpl; [done|].
  destruct (has_id oid d0) eqn:E.
  - intros [= <-]. split; [done | by left].
  - intros Hc. destruct (IH Hc). split; [done | by right].
Qed.

Lemma has_id_other oid oid' d :
  oid' ≠ oid → has_id oid d = true → has_id oid' d = false.
Proof.
  intros Hne Hd%has_id_lookup. unfold has_id. rewrite Hd.
  by apply bool_decide_eq_false_2.
Qed.

Lemma update_one_ids oid data c :
  data !! "_id" = None → ids (Collection.update_one oid data c).2 = ids c.
Proof.
  intros Hd. unfold ids. induction c as [|d c IH]; [done|].
  cbn [Collection.update_one]. destruct (has_id oid d).
  - cbn [snd]. rewrite !fmap_cons. by rewrite lookup_union_r.
  - destruct (Collection.update_one oid data c) as [n c'].
    cbn [snd] in *. rewrite !fmap_cons. by rewrite IH.
Qed.

Lemma update_one_frame oid data c i d :
  c !! i = Some d →
  ∃ d', (Collection.update_one oid data c).2 !! i = Some d' ∧
        (d' = d ∨ (d' = data ∪ d ∧ has_id oid d = true)).
Proof.
  revert i. induction c as [|d0 c IH]; intros i Hi; [done|]. simpl.
  destruct (has_id oid d0) eqn:E; simpl.
  - destruct i as [|i]; simpl in *; [|by eauto].
    injection Hi as ->. eauto.
  - destruct (Collection.update_one oid data c) as [n c'] eqn:Ec.
    simpl in *. destruct i as [|i]; simpl in *; [by eauto|]. by apply IH.
Qed.

Lemma update_one_length oid data c :
  length (Collection.update_one oid data c).2 = length c.
Proof.
  induction c as [|d c IH]; simpl; [done|].
  destruct (has_id oid d); simpl; [done|].
  destruct (Collection.update_one oid data c) as [n c'].
  simpl in *. by rewrite IH.
Qed.

Lemma update_one_twice oid data c :
  data !! "_id" = None →
  Collection.update_one oid data (Collection.update_one oid data c).2 =
  Collection.update_one oid data c.
Proof.
  intros Hd. induction c as [|d c IH]; simpl; [done|].
  destruct (has_id oid d) eqn:E; simpl.
  - rewrite has_id_union, E by done.
    by rewrite (assoc_L (∪)), (idemp_L (∪) data).
  - destruct (Collection.update_one oid data c) as [n c'].
    simpl in *. by rewrite E, IH.
Qed.

Lemma delete_one_find_other oid oid' c :
  oid' ≠ oid →
  Collection.find_one oid' (Collection.delete_one oid c).2 =
  Collection.find_one oid' c.
Proof.
  intros Hne. induction c as [|d c IH]; simpl; [done|].
  destruct (has_id oid d) eqn:E; simpl.
  - by rewrite (has_id_other _ _ _ Hne E).
  - destruct (Collection.delete_one oid c) as [n c'].
    simpl in *. by rewrite IH.
Qed.

Lemma delete_one_first oid c d :
  Collection.find_one oid c = Some d →
  ∃ i, c !! i = Some d ∧
       (∀ j d0, j < i → c !! j = Some d0 → has_id oid d0 = false) ∧
       Collection.delete_one oid c = (1%nat, delete i c).
Proof.
  induction c as [|d0 c IH]; simpl; [done|].
  destruct (has_id oid d0) eqn:E.
  - intros [= ->]. exists 0%nat. split; [done|]. split; [|done].
    intros j d0 Hj. lia.
  - intros Hc. destruct (IH Hc) as (i & Hi & Hfirst & ->).
    exists (S i). split; [done|]. split; [|done].
    intros [|j] d1 Hj; simpl; [by intros [= <-]|].
    apply Hfirst. lia.
Qed.

End CollectionMore.

(** ** The sparse update set, further *)

Lemma model_dump_lookup_None (p : ProductUpdate) (k : string) :
  k ∉ update_fields → model_dump_exclude_unset p !! k = None.
Proof.
  unfold update_fields. rewrite !not_elem_of_cons.
  intros (? & ? & ? & ? & ? & _). unfold model_dump_exclude_unset.
  by rewrite !dump_field_lookup_ne.
Qed.

Lemma stamped_lookup_None (p : ProductUpdate) (now : Z) (k : string) :
  k ∉ update_fields → stamped p now !! k = None.
Proof.
  intros Hk. unfold stamped.
  rewrite lookup_insert_ne
    by (intros <-; apply Hk; unfold update_fields;
        do 5 apply list_elem_of_further; apply list_elem_of_here).
  unfold update_data. apply map_lookup_filter_None_2. left.
  by apply model_dump_lookup_None.
Qed.

Lemma stamped_updated_at (p : ProductUpdate) (now : Z) :
  stamped p now !! "updated_at" = Some (VDate now).
Proof. apply lookup_insert_eq. Qed.

Lemma stamped_update_data (p : ProductUpdate) (now : Z) (k : string) (v : value) :
  update_data p !! k = Some v → stamped p now !! k = Some v.
Proof.
  intros Hk. unfold stamped. rewrite lookup_insert_ne; [done|].
  intros <-. unfold update_data in Hk.
  apply map_lookup_filter_Some in Hk as [Hk _].
  unfold model_dump_exclude_unset in Hk.
  by rewrite !dump_field_lookup_ne in Hk.
Qed.

(** ** The handlers, further *)

Section HandlerMore.
Context `{PyRuntime}.
Implicit Types (s : store) (p : ProductUpdate) (oid : ObjectId).

(** Every run of [update_product] on a configured store. *)
Lemma update_product_cases s product_id p now :
  (ObjectId_is_valid product_id = false ∧
   update_product (Some s) product_id p now =
     (Raise (HTTPException 400 "Invalid objectid"), Some s)) ∨
  (∃ oid,
     PyObjectId.validate (IStr product_id) = Return oid ∧
     ((update_data p = ∅ ∧
       update_product (Some s) product_id p now =
         (Raise (HTTPException 400 "No fields to update"), Some s)) ∨
      (update_data p ≠ ∅ ∧
       Collection.find_one oid (product s) = None ∧
       update_product (Some s) product_id p now =
         (Raise (HTTPException 404 "Product not found"),
          Some (log (CUpdateOne oid (stamped p now)) s))) ∨
      (update_data p ≠ ∅ ∧
       ∃ d, Collection.find_one oid (product s) = Some d ∧
            update_product (Some s) product_id p now =
              (Return (serialize_doc (Some (stamped p now ∪ d))),
               Some (mkStore
                       (Collection.update_one oid (stamped p now) (product s)).2
                       (calls s ++ [CUpdateOne oid (stamped p now);
                                    CFindOne oid])))))).
Proof.
  destruct (ObjectId_is_valid product_id) eqn:Hvalid.
  2: { left. split; [done|]. by apply update_product_invalid. }
  right. destruct (validate_valid _ Hvalid) as (oid & Hv & _).
  exists oid. split; [done|].
  destruct (decide (update_data p = ∅)) as [Hd|Hd].
  { left. split; [done|]. by eapply update_product_no_data. }
  right. rewrite (update_product_run _ _ _ _ _ Hv Hd). cbv zeta.
  pose proof (find_one_update_one oid _ (product s) (stamped_no_id p now))
    as Hre.
  destruct (Collection.find_one oid (product s)) as [d|] eqn:Hfind.
  - right. split; [done|]. exists d. split; [done|].
    destruct (update_one_matched oid (stamped p now) _ _ Hfind)
      as (i & Hi & Hup).
    rewrite Hup in *. cbn [fst snd Nat.eqb] in *. rewrite Hre.
    unfold log. cbn [product calls fmap option_fmap option_map].
    by rewrite <-app_assoc.
  - left. split; [done|]. split; [done|].
    by rewrite (update_one_unmatched _ _ _ Hfind).
Qed.

(** Every run of [delete_product] on a configured store. *)
Lemma delete_product_cases s product_id :
  (ObjectId_is_valid product_id = false ∧
   delete_product (Some s) product_id =
     (Raise (HTTPException 400 "Invalid objectid"), Some s)) ∨
  (∃ oid,
     PyObjectId.validate (IStr product_id) = Return oid ∧
     ((Collection.find_one oid (product s) = None ∧
       delete_product (Some s) product_id =
         (Raise (HTTPException 404 "Product not found"),
          Some (log (CDeleteOne oid) s))) ∨
      (∃ d, Collection.find_one oid (product s) = Some d ∧
            delete_product (Some s) product_id =
              (Return status_ok,
               Some (mkStore (Collection.delete_one oid (product s)).2
                       (calls s ++ [CDeleteOne oid])))))).
Proof.
  destruct (ObjectId_is_valid product_id) eqn:Hvalid.
  2: { left. split; [done|]. by apply delete_product_invalid. }
  right. destruct (validate_valid _ Hvalid) as (oid & Hv & _).
  exists oid. split; [done|].
  rewrite (delete_product_run _ _ _ Hv). cbv zeta.
  destruct (Collection.find_one oid (product s)) as [d|] eqn:Hfind.
  - right. exists d. split; [done|].
    destruct (delete_one_matched _ _ _ Hfind) as (i & _ & ->). done.
  - left. split; [done|]. by rewrite (delete_one_unmatched _ _ Hfind).
Qed.

Lemma classify_free (e : exn) :
  is_HTTPException e = false → classify e = HTTPException 400 (exn_str e).
Proof. by destruct e. Qed.

Lemma update_product_on_invalid gw s product_id p now :
  ObjectId_is_valid product_id = false →
  update_product_on gw (Some s) product_id p now =
  (Raise (HTTPException 400 "Invalid objectid"), Some s).
Proof.
  intros Hv. unfold update_product_on. autounfold with handlers.
  by rewrite validate_invalid.
Qed.

Lemma update_product_on_no_data gw s product_id oid p now :
  PyObjectId.validate (IStr product_id) = Return oid →
  update_data p = ∅ →
  update_product_on gw (Some s) product_id p now =
  (Raise (HTTPException 400 "No fields to update"), Some s).
Proof.
  intros Hv Hd. unfold update_product_on. autounfold with handlers.
  rewrite Hv, Hd. done.
Qed.

(** The run of [update_product] past its two guards, on any gateway. *)
Lemma update_product_on_run gw s product_id oid p now :
  PyObjectId.validate (IStr product_id) = Return oid →
  update_data p ≠ ∅ →
  update_product_on gw (Some s) product_id p now =
  match gw_update_one gw oid (stamped p now) s with
  | (Raise e, s1) => (Raise (classify e), Some s1)
  | (Return res, s1) =>
      if (matched_count res =? 0)%nat then
        (Raise (HTTPException 404 "Product not found"), Some s1)
      else
        match gw_find_one gw oid s1 with
        | (Raise e, s2) => (Raise (classify e), Some s2)
        | (Return doc, s2) => (Return (serialize_doc doc), Some s2)
        end
  end.
Proof.
  intros Hv Hd. unfold update_product_on. autounfold with handlers.
  rewrite Hv, (falsy_Some_false _ Hd). fold (stamped p now).
  destruct (gw_update_one gw oid (stamped p now) s) as [[res|e] s1];
    [|by destruct e].
  destruct (matched_count res =? 0)%nat; [done|].
  destruct (gw_find_one gw oid s1) as [[doc|e] s2]; [done | by destruct e].
Qed.

Lemma delete_product_on_invalid gw s product_id :
  ObjectId_is_valid product_id = false →
  delete_product_on gw (Some s) product_id =
  (Raise (HTTPException 400 "Invalid objectid"), Some s).
Proof.
  intros Hv. unfold delete_product_on. autounfold with handlers.
  by rewrite validate_invalid.
Qed.

(** The run of [delete_product] past its guard, on any gateway. *)
Lemma delete_product_on_run gw s product_id oid :
  PyObjectId.validate (IStr product_id) = Return oid →
  delete_product_on gw (Some s) product_id =
  match gw_delete_one gw oid s with
  | (Raise e, s1) => (Raise (classify e), Some s1)
  | (Return res, s1) =>
      if (deleted_count res =? 0)%nat then
        (Raise (HTTPException 404 "Product not found"), Some s1)
      else (Return status_ok, Some s1)
  end.
Proof.
  intros Hv. unfold delete_product_on. autounfold with handlers.
  rewrite Hv.
  destruct (gw_delete_one gw oid s) as [[res|e] s1]; [|by destruct e].
  by destruct (deleted_count res =? 0)%nat.
Qed.

(** X7: whatever the store does, as long as it raises no
    [HTTPException] of its own, [update_product] returns a value or
    raises an [HTTPException] with status 400, 404 or 500, and 500
    exactly when the handle is missing.  Past the two guards, an
    exception of [update_one] or of [find_one] comes out as 400 with
    its text, zero matches as 404, and otherwise the answer is the
    serializer's output for what [find_one] returned, [None]
    included.  On the in-memory store this is [update_product]. *)
Theorem update_product_outcomes gw (db : option store) product_id p now :
  http_free gw →
  let out := update_product_on gw db product_id p now in
  update_product_on reliable db product_id p now =
    update_product db product_id p now ∧
  ((∃ view, out.1 = Return view) ∨
   (∃ c d, out.1 = Raise (HTTPException c d) ∧
           (c = 400 ∨ c = 404 ∨ c = 500)%Z)) ∧
  (db = None ↔ ∃ d, out.1 = Raise (HTTPException 500 d)) ∧
  (∀ s oid,
     db = Some s →
     PyObjectId.validate (IStr product_id) = Return oid →
     update_data p ≠ ∅ →
     match gw_update_one gw oid (stamped p now) s with
     | (Raise e, s1) =>
         out = (Raise (HTTPException 400 (exn_str e)), Some s1)
     | (Return res, s1) =>
         if (matched_count res =? 0)%nat then
           out = (Raise (HTTPException 404 "Product not found"), Some s1)
         else
           match gw_find_one gw oid s1 with
           | (Raise e, s2) =>
               out = (Raise (HTTPException 400 (exn_str e)), Some s2)
           | (Return doc, s2) => out = (Return (serialize_doc doc), Some s2)
           end
     end).
Proof.
  intros (Hf1 & Hf2 & _). cbv zeta. split; [by destruct db|].
  destruct db as [s|].
  2: { split; [right; eexists 500%Z, _; split; [done | by right; right]|].
       split; [split; [by eexists | done] | by intros s oid [=]]. }
  destruct (ObjectId_is_valid product_id) eqn:Hvalid.
  2: { rewrite update_product_on_invalid by done. cbn [fst].
       split; [right; eexists 400%Z, _; split; [done | by left]|].
       split; [split; [done | by intros [d [=]]]|].
       intros s0 oid _ Hv. by rewrite validate_invalid in Hv. }
  destruct (validate_valid _ Hvalid) as (oid & Hv & _).
  destruct (decide (update_data p = ∅)) as [Hd|Hd].
  { rewrite (update_product_on_no_data _ _ _ _ _ _ Hv Hd). cbn [fst].
    split; [right; eexists 400%Z, _; split; [done | by left]|].
    split; [split; [done | by intros [d [=]]] | by intros s0 oid0 _ _ ?]. }
  rewrite (update_product_on_run _ _ _ _ _ _ Hv Hd).
  assert (∀ s0 oid0, Some s = Some s0 →
            PyObjectId.validate (IStr product_id) = Return oid0 →
            s0 = s ∧ oid0 = oid) as Hsame.
  { intros s0 oid0 [= <-]. rewrite Hv. by intros [= <-]. }
  destruct (gw_update_one gw oid (stamped p now) s) as [[res|e] s1] eqn:Eu.
  - destruct (matched_count res =? 0)%nat eqn:Em.
    + cbn [fst].
      split; [right; eexists 404%Z, _; split; [done | by right; left]|].
      split; [split; [done | by intros [d [=]]]|].
      intros s0 oid0 Hs Hv0 _. destruct (Hsame _ _ Hs Hv0) as [-> ->].
      by rewrite Eu, Em.
    + destruct (gw_find_one gw oid s1) as [[doc|e] s2] eqn:Ef.
      * cbn [fst]. split; [left; by eexists|].
        split; [split; [done | by intros [d [=]]]|].
        intros s0 oid0 Hs Hv0 _. destruct (Hsame _ _ Hs Hv0) as [-> ->].
        by rewrite Eu, Em, Ef.
      * rewrite (classify_free e (Hf1 _ _ _ _ Ef)). cbn [fst].
        split; [right; eexists 400%Z, _; split; [done | by left]|].
        split; [split; [done | by intros [d [=]]]|].
        intros s0 oid0 Hs Hv0 _. destruct (Hsame _ _ Hs Hv0) as [-> ->].
        by rewrite Eu, Em, Ef.
  - rewrite (classify_free e (Hf2 _ _ _ _ _ Eu)). cbn [fst].
    split; [right; eexists 400%Z, _; split; [done | by left]|].
    split; [split; [done | by intros [d [=]]]|].
    intros s0 oid0 Hs Hv0 _. destruct (Hsame _ _ Hs Hv0) as [-> ->].
    by rewrite Eu.
Qed.

(** X8: whatever the store does, as long as it raises no
    [HTTPException] of its own, [delete_product] returns
    [{status: ok}] or raises an [HTTPException] with status 400, 404
    or 500, and 500 exactly when the handle is missing.  Past the
    guard, an exception of [delete_one] comes out as 400 with its
    text, zero deletions as 404, and anything else as [{status: ok}].
    On the in-memory store this is [delete_product]. *)
Theorem delete_product_outcomes gw (db : option store) product_id :
  http_free gw →
  let out := delete_product_on gw db product_id in
  delete_product_on reliable db product_id = delete_product db product_id ∧
  (out.1 = Return status_ok ∨
   (∃ c d, out.1 = Raise (HTTPException c d) ∧
           (c = 400 ∨ c = 404 ∨ c = 500)%Z)) ∧
  (db = None ↔ ∃ d, out.1 = Raise (HTTPException 500 d)) ∧
  (∀ s oid,
     db = Some s →
     PyObjectId.validate (IStr product_id) = Return oid →
     match gw_delete_one gw oid s with
     | (Raise e, s1) =>
         out = (Raise (HTTPException 400 (exn_str e)), Some s1)
     | (Return res, s1) =>
         if (deleted_count res =? 0)%nat then
           out = (Raise (HTTPException 404 "Product not found"), Some s1)
         else out = (Return status_ok, Some s1)
     end).
Proof.
  intros (_ & _ & Hf3). cbv zeta. split; [by destruct db|].
  destruct db as [s|].
  2: { split; [right; eexists 500%Z, _; split; [done | by right; right]|].
       split; [split; [by eexists | done] | by intros s oid [=]]. }
  destruct (ObjectId_is_valid product_id) eqn:Hvalid.
  2: { rewrite delete_product_on_invalid by done. cbn [fst].
       split; [right; eexists 400%Z, _; split; [done | by left]|].
       split; [split; [done | by intros [d [=]]]|].
       intros s0 oid _ Hv. by rewrite validate_invalid in Hv. }
  destruct (validate_valid _ Hvalid) as (oid & Hv & _).
  rewrite (delete_product_on_run _ _ _ _ Hv).
  assert (∀ s0 oid0, Some s = Some s0 →
            PyObjectId.validate (IStr product_id) = Return oid0 →
            s0 = s ∧ oid0 = oid) as Hsame.
  { intros s0 oid0 [= <-]. rewrite Hv. by intros [= <-]. }
  destruct (gw_delete_one gw oid s) as [[res|e] s1] eqn:Ed.
  - destruct (deleted_count res =? 0)%nat eqn:Em; cbn [fst].
    + split; [right; eexists 404%Z, _; split; [done | by right; left]|].
      split; [split; [done | by intros [d [=]]]|].
      intros s0 oid0 Hs Hv0. destruct (Hsame _ _ Hs Hv0) as [-> ->].
      by rewrite Ed, Em.
    + split; [by left|].
      split; [split; [done | by intros [d [=]]]|].
      intros s0 oid0 Hs Hv0. destruct (Hsame _ _ Hs Hv0) as [-> ->].
      by rewrite Ed, Em.
  - rewrite (classify_free e (Hf3 _ _ _ _ Ed)). cbn [fst].
    split; [right; eexists 400%Z, _; split; [done | by left]|].
    split; [split; [done | by intros [d [=]]]|].
    intros s0 oid0 Hs Hv0. destruct (Hsame _ _ Hs Hv0) as [-> ->].
    by rewrite Ed.
Qed.

(** X9: the view that a successful update returns: [id] is the
    identifier of the request in lower case and without whitespace,
    there is no [_id], [updated_at] is the instant of the update, every
    field supplied with a value shows that value, and every other
    field, the product fields left out or supplied as null included,
    shows what was stored. *)
Theorem update_product_response s product_id p now r s' :
  update_product (Some s) product_id p now = (Return r, Some s') →
  ∃ oid d view,
    PyObjectId.validate (IStr product_id) = Return oid ∧
    Collection.find_one oid (product s) = Some d ∧
    r = Some view ∧
    view !! "id" = Some (VStr (string_lower (without_space product_id))) ∧
    view !! "_id" = None ∧
    view !! "updated_at" = Some (VDate now) ∧
    (∀ k v, update_data p !! k = Some v → view !! k = Some v) ∧
    (∀ k, update_data p !! k = None →
          k ≠ "updated_at" → k ≠ "id" → k ≠ "_id" → view !! k = d !! k).
Proof.
  destruct (update_product_cases s product_id p now)
    as [[_ ->] | (oid & Hv & [[_ ->] | [(_ & _ & ->) | (Hd & d & Hfind & ->)]])];
    try done.
  intros [= <- <-]. exists oid, d.
  assert (stamped p now ∪ d ≠ ∅) as Hne.
  { intros E. pose proof (stamped_updated_at p now) as Hu.
    apply (lookup_union_Some_l _ d) in Hu. by rewrite E in Hu. }
  destruct (find_one_has_id _ _ _ Hfind) as [Hid%has_id_lookup _].
  assert (stamped p now !! "id" = None) as Hnoid.
  { apply stamped_lookup_None. unfold update_fields.
    rewrite !not_elem_of_cons. repeat split; try done. apply not_elem_of_nil. }
  eexists. split; [done|]. split; [done|].
  split; [by apply serialize_doc_Some|].
  unfold dict_get. rewrite lookup_union_r by apply stamped_no_id.
  rewrite Hid. simpl. rewrite (str_validate _ _ Hv).
  split; [rewrite lookup_delete_ne by done; apply lookup_insert_eq|].
  split; [apply lookup_delete_eq|].
  split.
  { rewrite lookup_delete_ne, lookup_insert_ne by done.
    apply lookup_union_Some_l, stamped_updated_at. }
  split.
  - intros k v Hk%(stamped_update_data _ now).
    rewrite lookup_delete_ne by (intros <-; by rewrite stamped_no_id in Hk).
    rewrite lookup_insert_ne by (intros <-; by rewrite Hnoid in Hk).
    by apply lookup_union_Some_l.
  - intros k Hk Hk0 Hk1 Hk2.
    rewrite lookup_delete_ne, lookup_insert_ne by done.
    rewrite lookup_union_r; [done|].
    unfold stamped. by rewrite lookup_insert_ne.
Qed.

(** X10: whatever the request, an update keeps the number and the
    order of the documents and their identifiers; in every document
    the fields other than the five of a product and [updated_at] are
    as before; and a document that changed is one with the identifier
    of the request, now holding the update set. *)
Theorem update_product_frame s product_id p now :
  ∃ s',
    (update_product (Some s) product_id p now).2 = Some s' ∧
    length (product s') = length (product s) ∧
    ids (product s') = ids (product s) ∧
    ∀ i d, product s !! i = Some d →
      ∃ d', product s' !! i = Some d' ∧
        (∀ k, k ∉ update_fields → d' !! k = d !! k) ∧
        (d' = d ∨
         ∃ oid, PyObjectId.validate (IStr product_id) = Return oid ∧
                has_id oid d = true ∧ d' = stamped p now ∪ d).
Proof.
  destruct (update_product_cases s product_id p now)
    as [[_ ->] | (oid & Hv & [[_ ->] | [(_ & _ & ->) | (Hd & d & _ & ->)]])];
    cbn [fst snd]; eexists; (split; [done|]); cbn [product log];
    try (split; [done|]; split; [done|]; intros i d0 Hi; exists d0; by eauto).
  split; [apply update_one_length|].
  split; [apply update_one_ids, stamped_no_id|].
  intros i d0 Hi.
  destruct (update_one_frame oid (stamped p now) _ _ _ Hi)
    as (d' & Hi' & [-> | [-> Hhas]]).
  - exists d0. split; [done|]. split; [done | by left].
  - exists (stamped p now ∪ d0). split; [done|].
    split; [|right; by exists oid].
    intros k Hk. rewrite lookup_union_r; [done|].
    by apply stamped_lookup_None.
Qed.

(** X11: the handlers keep the identifiers of a collection unique:
    an update leaves them as they are, a delete leaves a sub-list of
    them, a listing leaves the collection alone. *)
Theorem handlers_keep_unique_ids s product_id p now :
  unique_ids (product s) →
  (∀ s', (update_product (Some s) product_id p now).2 = Some s' →
         unique_ids (product s')) ∧
  (∀ s', (delete_product (Some s) product_id).2 = Some s' →
         unique_ids (product s')) ∧
  (∀ s', (list_products (Some s)).2 = Some s' → product s' = product s).
Proof.
  intros Huniq. split; [|split].
  - destruct (update_product_cases s product_id p now)
      as [[_ ->] | (oid & Hv & [[_ ->] | [(_ & _ & ->) | (Hd & d & _ & ->)]])];
      intros s' [= <-]; try done.
    unfold unique_ids. cbn [product].
    fold (ids (Collection.update_one oid (stamped p now) (product s)).2).
    rewrite update_one_ids by apply stamped_no_id. done.
  - destruct (delete_product_cases s product_id)
      as [[_ ->] | (oid & Hv & [[_ ->] | (d & Hd & ->)])];
      intros s' [= <-]; try done.
    destruct (delete_one_matched _ _ _ Hd) as (i & _ & ->).
    unfold unique_ids in *. cbn [snd product].
    eapply sublist_NoDup; [done|]. apply fmap_sublist, sublist_delete.
  - by intros s' [= <-].
Qed.

(** X12: an update repeated with the same payload at the same instant
    gets the same answer and leaves the collection as the first one
    left it. *)
Theorem update_product_twice s product_id p now :
  ∃ s1 s2,
    (update_product (Some s) product_id p now).2 = Some s1 ∧
    update_product (Some s1) product_id p now =
      ((update_product (Some s) product_id p now).1, Some s2) ∧
    product s2 = product s1.
Proof.
  destruct (ObjectId_is_valid product_id) eqn:Hvalid.
  2: { exists s, s. by rewrite update_product_invalid. }
  destruct (validate_valid _ Hvalid) as (oid & Hv & _).
  destruct (decide (update_data p = ∅)) as [Hd|Hd].
  { exists s, s. by rewrite (update_product_no_data _ _ _ _ _ Hv Hd). }
  rewrite (update_product_run _ _ _ _ _ Hv Hd). cbv zeta.
  pose proof (update_one_twice oid _ (product s) (stamped_no_id p now))
    as Htwice.
  destruct (Collection.update_one oid (stamped p now) (product s))
    as [n c'] eqn:E. cbn [fst snd] in *.
  destruct (n =? 0)%nat eqn:En; cbn [fst snd]; eexists _, _;
    (split; [done|]);
    rewrite (update_product_run _ _ _ _ _ Hv Hd); cbv zeta;
    cbn [product log]; rewrite Htwice; cbn [fst snd]; rewrite En;
    split; done.
Qed.

(** X13: a delete that answers [{status: ok}] removed the first
    document with the identifier of the request and nothing else: the
    other documents keep their order, and every other identifier finds
    what it found before. *)
Theorem delete_product_frame s product_id r s' :
  delete_product (Some s) product_id = (Return r, Some s') →
  ∃ oid i d,
    PyObjectId.validate (IStr product_id) = Return oid ∧
    product s !! i = Some d ∧ has_id oid d = true ∧
    (∀ j d0, (j < i)%nat → product s !! j = Some d0 → has_id oid d0 = false) ∧
    product s' = delete i (product s) ∧
    (∀ oid', oid' ≠ oid →
       Collection.find_one oid' (product s') =
       Collection.find_one oid' (product s)).
Proof.
  destruct (delete_product_cases s product_id)
    as [[_ ->] | (oid & Hv & [[_ ->] | (d & Hd & ->)])]; try done.
  intros [= <- <-].
  destruct (delete_one_first _ _ _ Hd) as (i & Hi & Hfirst & Hdel).
  destruct (find_one_has_id _ _ _ Hd) as [Hhas _].
  exists oid, i, d. cbn [product]. repeat (split; [done|]). split.
  - by rewrite Hdel.
  - intros oid' Hne. by apply delete_one_find_other.
Qed.

(** X14: where identifiers are unique, an update of a product that was
    deleted fails with 404. *)
Theorem update_after_delete s product_id r s1 p now :
  unique_ids (product s) →
  delete_product (Some s) product_id = (Return r, Some s1) →
  update_data p ≠ ∅ →
  (update_product (Some s1) product_id p now).1 =
  Raise (HTTPException 404 "Product not found").
Proof.
  intros Huniq Hdel Hd.
  destruct (delete_product_cases s product_id)
    as [[_ E] | (oid & Hv & [[_ E] | (d & _ & E)])];
    rewrite E in Hdel; try done.
  injection Hdel as <- <-.
  rewrite (update_product_run _ _ _ _ _ Hv Hd). cbv zeta. cbn [product].
  rewrite update_one_unmatched by by apply find_one_delete_one.
  done.
Qed.

(** X15: the view that a successful update returns is one of the views
    of the next listing, which has as many entries as the collection
    had documents. *)
Theorem update_then_list s product_id p now r s1 :
  update_product (Some s) product_id p now = (Return r, Some s1) →
  ∃ views s2,
    list_products (Some s1) = (Return views, Some s2) ∧
    r ∈ views ∧ length views = length (product s).
Proof.
  destruct (update_product_cases s product_id p now)
    as [[_ ->] | (oid & Hv & [[_ ->] | [(_ & _ & ->) | (Hd & d & Hfind & ->)]])];
    try done.
  intros [= <- <-]. eexists _, _. split; [done|]. cbn [product].
  pose proof (find_one_update_one oid _ (product s) (stamped_no_id p now))
    as Hre. rewrite Hfind in Hre.
  apply find_one_has_id in Hre as [_ Hin].
  unfold Collection.find_sorted. split.
  - apply (list_elem_of_fmap_2 (λ d, serialize_doc (Some d))).
    by rewrite merge_sort_Permutation.
  - rewrite length_fmap, merge_sort_Permutation. apply update_one_length.
Qed.

End HandlerMore.

(** ** The diagnostic endpoint *)

Section Diagnostics.
Implicit Types (db : option handle) (env : gmap string string).




(** X16: the response always has the same six keys, and
    [database_url] and [database_name] tell only whether the two
    environment variables are set to a non-empty string: the name of
    the database never shows. *)
Theorem test_database_env_fields db env :
  dom (test_database db env) =
    {[ "backend"; "database"; "database_url"; "database_name";
       "connection_status"; "collections" ]} ∧
  test_database db env !! "backend" = Some (DStr "✅ Running") ∧
  test_database db env !! "database_url" =
    Some (DStr (if getenv_truthy env "DATABASE_URL" then "✅ Set"
                else "❌ Not Set")) ∧
  test_database db env !! "database_name" =
    Some (DStr (if getenv_truthy env "DATABASE_NAME" then "✅ Set"
                else "❌ Not Set")).
Proof.
  split; [|split; [|split]].
  - unfold test_database, probe, diag_initial.
    destruct db as [[name [names|msg]]|]; cbn [list_collection_names];
      rewrite !dom_insert_L, dom_singleton_L; set_solver.
  - unfold test_database, probe.
    destruct db as [[name [names|msg]]|]; cbn [list_collection_names];
      by rewrite !lookup_insert_ne.
  - unfold test_database. rewrite lookup_insert_ne by done.
    apply lookup_insert_eq.
  - unfold test_database. apply lookup_insert_eq.
Qed.

(** X17: [collections] holds the first ten names of the listing, all
    of them when there are at most ten, and is empty when there is no
    handle or the listing failed. *)
Theorem test_database_collections db env :
  ∃ l, test_database db env !! "collections" = Some (DList l) ∧
       (length l ≤ 10)%nat ∧
       match db with
       | Some h =>
           match list_collection_names h with
           | Done names =>
               l = take 10 names ∧ l `prefix_of` names ∧
               ((length names ≤ 10)%nat → l = names)
           | Failed _ => l = []
           end
       | None => l = []
       end.
Proof.
  unfold test_database, probe.
  destruct db as [[name [names|msg]]|]; cbn [list_collection_names];
    rewrite !lookup_insert_ne by done.
  - exists (take 10 names). rewrite lookup_insert_eq. split; [done|].
    split; [rewrite length_take; lia|].
    split; [done|]. split; [apply prefix_take | apply take_ge].
  - exists []. split; [reflexivity|]. split; [simpl; lia | done].
  - exists []. split; [reflexivity|]. split; [simpl; lia | done].
Qed.


End Diagnostics.

(** ** Worked instances of the further properties *)

Lemma validate_str_round_trip_spaced :
  PyObjectId.validate (IStr spaced_hex) = Return spaced_id ∧
  @py_str plain_runtime (VOid spaced_id) =
    string_lower (without_space spaced_hex) ∧
  PyObjectId.validate (IOid spaced_id) = Return spaced_id ∧
  (without_space spaced_hex = spaced_hex →
   PyObjectId.validate (IStr (@py_str plain_runtime (VOid spaced_id))) =
   Return spaced_id) ∧
  (without_space spaced_hex ≠ spaced_hex →
   PyObjectId.validate (IStr (@py_str plain_runtime (VOid spaced_id))) =
   Raise (ValueError "Invalid objectid")).
Proof.
  split; [reflexivity|].
  apply (@validate_str_round_trip plain_runtime spaced_hex). reflexivity.
Defined.

Lemma str_validate_round_trip_tree :
  length (binary tree_id) = 12%nat ∧
  Forall (λ b, (b < 256)%N) (binary tree_id) ∧
  ObjectId_is_valid (@py_str plain_runtime (VOid tree_id)) = true ∧
  PyObjectId.validate (IStr (@py_str plain_runtime (VOid tree_id))) =
    Return tree_id.
Proof.
  assert (Forall (λ b, (b < 256)%N) (binary tree_id)) as Hb
    by (simpl; repeat constructor).
  split; [reflexivity|]. split; [exact Hb|].
  apply (@str_validate_round_trip plain_runtime tree_id); [reflexivity | exact Hb].
Defined.

Lemma serialize_doc_keys_tree :
  let view := <["id" := VStr tree_hex]> (delete "_id" tree) in
  @serialize_doc plain_runtime (Some tree) = Some view ∧
  view !! "_id" = None ∧
  (view = ∅ ∨ ∃ s, view !! "id" = Some (VStr s)) ∧
  (∀ d, Some tree = Some d → d ≠ ∅ →
        dom view = {[ "id" ]} ∪ (dom d ∖ {[ "_id" ]})).
Proof.
  intros view. split; [reflexivity|].
  apply (@serialize_doc_keys plain_runtime (Some tree) view). reflexivity.
Defined.

Lemma serialize_doc_twice_tree :
  tree ≠ ∅ ∧
  @serialize_doc plain_runtime (@serialize_doc plain_runtime (Some tree)) =
  Some (<["id" := VStr "None"]> (delete "_id" tree)).
Proof.
  split; [apply insert_non_empty|].
  apply (@serialize_doc_twice plain_runtime tree), insert_non_empty.
Defined.

Lemma update_product_response_tree :
  @update_product plain_runtime (Some shop) tree_hex (only_price 39.5) 100 =
    (Return (Some tree_repriced_view), Some shop_repriced) ∧
  ∃ oid d view,
    PyObjectId.validate (IStr tree_hex) = Return oid ∧
    Collection.find_one oid (product shop) = Some d ∧
    Some tree_repriced_view = Some view ∧
    view !! "id" = Some (VStr (string_lower (without_space tree_hex))) ∧
    view !! "_id" = None ∧
    view !! "updated_at" = Some (VDate 100) ∧
    (∀ k v, update_data (only_price 39.5) !! k = Some v → view !! k = Some v) ∧
    (∀ k, update_data (only_price 39.5) !! k = None →
          k ≠ "updated_at" → k ≠ "id" → k ≠ "_id" → view !! k = d !! k).
Proof.
  split; [reflexivity|].
  apply (@update_product_response plain_runtime shop tree_hex
           (only_price 39.5) 100 (Some tree_repriced_view) shop_repriced).
  reflexivity.
Defined.

Lemma shop_unique_ids : unique_ids (product shop).
Proof.
  unfold unique_ids. simpl. apply NoDup_cons_2; [|apply NoDup_singleton].
  intros E%list_elem_of_singleton. vm_compute in E. discriminate E.
Qed.

Lemma handlers_keep_unique_ids_shop :
  unique_ids (product shop) ∧
  (∀ s', (@update_product plain_runtime (Some shop) tree_hex
            (only_price 39.5) 100).2 = Some s' →
         unique_ids (product s')) ∧
  (∀ s', (delete_product (Some shop) tree_hex).2 = Some s' →
         unique_ids (product s')) ∧
  (∀ s', (@list_products plain_runtime (Some shop)).2 = Some s' →
         product s' = product shop).
Proof.
  split; [exact shop_unique_ids|].
  apply (@handlers_keep_unique_ids plain_runtime shop tree_hex
           (only_price 39.5) 100), shop_unique_ids.
Defined.

Lemma delete_product_frame_tree :
  delete_product (Some shop) tree_hex =
    (Return status_ok, Some (mkStore [star] [CDeleteOne tree_id])) ∧
  ∃ oid i d,
    PyObjectId.validate (IStr tree_hex) = Return oid ∧
    product shop !! i = Some d ∧ has_id oid d = true ∧
    (∀ j d0, (j < i)%nat → product shop !! j = Some d0 →
             has_id oid d0 = false) ∧
    [star] = delete i (product shop) ∧
    (∀ oid', oid' ≠ oid →
       Collection.find_one oid' [star] =
       Collection.find_one oid' (product shop)).
Proof.
  split; [reflexivity|].
  apply (delete_product_frame shop tree_hex status_ok
           (mkStore [star] [CDeleteOne tree_id])).
  reflexivity.
Defined.

Lemma update_after_delete_tree :
  unique_ids (product shop) ∧
  delete_product (Some shop) tree_hex =
    (Return status_ok, Some (mkStore [star] [CDeleteOne tree_id])) ∧
  update_data (only_price 39.5) ≠ ∅ ∧
  (@update_product plain_runtime
     (Some (mkStore [star] [CDeleteOne tree_id])) tree_hex
     (only_price 39.5) 100).1 =
  Raise (HTTPException 404 "Product not found").
Proof.
  assert (update_data (only_price 39.5) ≠ ∅) as Hne.
  { rewrite update_data_only_price. apply insert_non_empty. }
  split; [exact shop_unique_ids|]. split; [reflexivity|]. split; [exact Hne|].
  apply (@update_after_delete plain_runtime shop tree_hex status_ok
           (mkStore [star] [CDeleteOne tree_id]) (only_price 39.5) 100);
    [exact shop_unique_ids | reflexivity | exact Hne].
Defined.

Lemma update_then_list_tree :
  @update_product plain_runtime (Some shop) tree_hex (only_price 39.5) 100 =
    (Return (Some tree_repriced_view), Some shop_repriced) ∧
  ∃ views s2,
    @list_products plain_runtime (Some shop_repriced) =
      (Return views, Some s2) ∧
    Some tree_repriced_view ∈ views ∧
    length views = length (product shop).
Proof.
  split; [reflexivity|].
  apply (@update_then_list plain_runtime shop tree_hex (only_price 39.5) 100
           (Some tree_repriced_view) shop_repriced).
  reflexivity.
Defined.

Example test_database_mongo :
  test_database (Some mongo) {[ "DATABASE_URL" := "mongodb://db"; "DATABASE_NAME" := "" ]} =
  {[ "backend" := DStr "✅ Running";
     "database" := DStr "✅ Connected & Working";
     "database_url" := DStr "✅ Set";
     "database_name" := DStr "❌ Not Set";
     "connection_status" := DStr "Connected";
     "collections" :=
       DList ["lead"; "product"; "c3"; "c4"; "c5"; "c6"; "c7"; "c8"; "c9";
              "c10"] ]}.
Proof. reflexivity. Qed.

Lemma http_free_unreachable : http_free unreachable.
Proof.
  repeat split; intros; simpl in *; unfold raise in *;
    match goal with E : (_, _) = (_, _) |- _ => by injection E as <- _ end.
Qed.

Lemma update_product_outcomes_unreachable :
  http_free unreachable ∧
  @update_product_on plain_runtime unreachable (Some shop) tree_hex
    (only_price 39.5) 100 =
  (Raise (HTTPException 400 "connection refused"), Some shop).
Proof.
  split; [exact http_free_unreachable|].
  assert (update_data (only_price 39.5) ≠ ∅) as Hne.
  { rewrite update_data_only_price. apply insert_non_empty. }
  destruct (@update_product_outcomes plain_runtime unreachable (Some shop)
              tree_hex (only_price 39.5) 100 http_free_unreachable)
    as (_ & _ & _ & Hrun).
  exact (Hrun shop tree_id eq_refl eq_refl Hne).
Defined.

Lemma delete_product_outcomes_unreachable :
  http_free unreachable ∧
  delete_product_on unreachable (Some shop) tree_hex =
  (Raise (HTTPException 400 "connection refused"), Some shop).
Proof.
  split; [exact http_free_unreachable|].
  destruct (delete_product_outcomes unreachable (Some shop) tree_hex
              http_free_unreachable) as (_ & _ & _ & Hrun).
  exact (Hrun shop tree_id eq_refl eq_refl).
Defined.


Example test_database_long_error :
  test_database (Some (mkHandle None (Failed
    "éééééééééééééééééééééééééééééééééééééééééééééééééééééé"))) ∅
    !! "database" =
  Some (DStr ("⚠️  Connected but Error: " +:+
    "éééééééééééééééééééééééééééééééééééééééééééééééééé")).
Proof. reflexivity. Qed.
